(** * DLLNode: the registration frontend of the DLL localizer

    A shallow embedding of [src/dllnode.hpp].  The node is the ROS frontend
    that decides when a registration cycle runs, prepares the candidate
    points and the initial pose guess, calls one alignment backend and
    folds the refined pose back into the maintained map-to-odom transform.

    The node is written against three external libraries (tf, pcl_ros and
    libm) and against the alignment backends of [grid3d.hpp] and
    [dllsolver.hpp].  None of them is part of the embedded file, so they
    enter as interfaces (type classes); the node's own code is translated
    statement by statement on top of them. *)

From Stdlib Require Import List String ZArith Bool.
From Stdlib Require Import Reals Lra Lia.
From Stdlib Require Import Floats.SpecFloat.
Import ListNotations.

Set Implicit Arguments.

(* ================================================================== *)
(** ** C++ floating types *)

(** The operations the node applies to a [double] or a [float]: the
    conversion of an integer literal, [+], [*], unary [-], the comparisons
    [>] and [<], [fabs] and [isnan]. *)
Class Floating (T : Type) : Type := {
  of_int : Z -> T;
  fadd : T -> T -> T;
  fmul : T -> T -> T;
  fneg : T -> T;
  fgt : T -> T -> bool;
  flt : T -> T -> bool;
  fabs : T -> T;
  isnan : T -> bool
}.

(** [sin] and [cos] of libm. *)
Class Libm (T : Type) : Type := {
  fsin : T -> T;
  fcos : T -> T
}.

(** The implicit conversions between [double] and [float]. *)
Class Conv (double float : Type) : Type := {
  to_float : double -> float;
  to_double : float -> double
}.

Declare Scope fp_scope.
Delimit Scope fp_scope with fp.
Infix "+" := fadd : fp_scope.
Infix "*" := fmul : fp_scope.
Notation "- x" := (fneg x) : fp_scope.
Infix ">?" := fgt (at level 70, no associativity) : fp_scope.
Infix "<?" := flt (at level 70, no associativity) : fp_scope.

(* ================================================================== *)
(** ** Plain data of tf, geometry_msgs, pcl and sensor_msgs *)

(** [tf::Vector3]. *)
Record Vector3 (double : Type) : Type := mkVector3 {
  getX : double;
  getY : double;
  getZ : double
}.

(** [geometry_msgs::Quaternion]. *)
Record QuaternionMsg (double : Type) : Type := mkQuaternionMsg {
  msg_x : double;
  msg_y : double;
  msg_z : double;
  msg_w : double
}.

(** [geometry_msgs::Pose]. *)
Record PoseMsg (double : Type) : Type := mkPoseMsg {
  position : Vector3 double;
  pose_orientation : QuaternionMsg double
}.

(** [geometry_msgs::PoseWithCovarianceStamped], reduced to the two fields
    the node reads: [header.frame_id] and [pose.pose]. *)
Record PoseWithCovarianceStamped (double : Type) : Type := mkPoseStamped {
  pose_frame_id : string;
  pose_pose : PoseMsg double
}.

(** [sensor_msgs::Imu], reduced to [orientation]. *)
Record Imu (double : Type) : Type := mkImu {
  orientation : QuaternionMsg double
}.

(** [pcl::PointXYZ]. *)
Record PointXYZ (float : Type) : Type := mkPointXYZ {
  px : float;
  py : float;
  pz : float
}.

(** [sensor_msgs::PointCloud2]: the frame of the header and the
    [width*height] points the x, y and z iterators run over, in order. *)
Record PointCloud2 (float : Type) : Type := mkPointCloud2 {
  cloud_frame_id : string;
  cloud_points : list (PointXYZ float)
}.

(* ================================================================== *)
(** ** External interfaces *)

(** The part of tf the node uses.  [Transform] stands for
    [tf::Transform], [tf::Pose] and [tf::StampedTransform] alike (the
    node never reads a stamp back).  [getRPY] returns roll, pitch and
    yaw in this order, as the out-parameters of
    [Matrix3x3::getRPY(roll, pitch, yaw)]. *)
Class TfLib (double : Type) : Type := {
  Matrix3x3 : Type;
  Quaternion : Type;
  Transform : Type;
  getOrigin : Transform -> Vector3 double;
  getBasis : Transform -> Matrix3x3;
  v3_length : Vector3 double -> double;
  getRPY : Matrix3x3 -> double * double * double;
  setRPY : double -> double -> double -> Quaternion;
  Matrix3x3_of : Quaternion -> Matrix3x3;
  mkTransform : Quaternion -> Vector3 double -> Transform;
  tf_identity : Transform;
  tf_mul : Transform -> Transform -> Transform;
  tf_inverse : Transform -> Transform;
  quaternionMsgToTF : QuaternionMsg double -> Quaternion;
  poseMsgToTF : PoseMsg double -> Transform
}.

(** [ros::Time], [ros::Duration], and [pcl_ros::transformPointCloud]. *)
Class RosLib (double float : Type) (TF : TfLib double) : Type := {
  Time : Type;
  Duration : Type;
  time_sub : Time -> Time -> Duration;
  toSec : Duration -> double;
  transformPointCloud :
    string -> Transform -> PointCloud2 float -> PointCloud2 float
}.

(** The alignment backends: [DLLSolver::solve], [Grid3d::alignNDT] and
    [Grid3d::alignICP].  Each receives the points and the four references
    [tx], [ty], [tz], [yaw]; its effect is a new backend state (the
    members [m_grid3d] and [m_solver]) and the new contents of the four
    references. *)
Definition Pose4 (double : Type) : Type := (double * double * double * double)%type.

Definition AlignFn (B double float : Type) : Type :=
  B -> list (PointXYZ float) -> double -> double -> double -> double ->
  B * Pose4 double.

Class Backend (double float : Type) : Type := {
  BackendState : Type;
  solve : AlignFn BackendState double float;
  alignNDT : AlignFn BackendState double float;
  alignICP : AlignFn BackendState double float
}.

Inductive Strategy : Type := DLL | NDT | ICP.

(* ================================================================== *)
(** ** The node *)

Section Node.

Context {double float : Type}.
Context {FD : Floating double} {FF : Floating float}.
Context {LM : Libm double} {CV : Conv double float}.
Context {TF : TfLib double} {ROS : @RosLib double float TF}.
Context {BE : Backend double float}.

Local Open Scope fp_scope.

(** The parameters read once by the constructor (lines 34-68). *)
Record Params : Type := mkParams {
  m_use_imu : bool;
  m_initZOffset : double;
  m_dTh : double;
  m_aTh : double;
  m_tTh : double;
  m_alignMethod : Z;
  m_baseFrameId : string;
  m_odomFrameId : string;
  m_globalFrameId : string
}.

(** The members the callbacks read and write (lines 378-420).  The ROS
    handles are left out; [m_backend] stands for [m_grid3d] and
    [m_solver]. *)
Record DLLNode : Type := mkDLLNode {
  params :> Params;
  m_init : bool;
  m_tfCache : bool;
  m_pclTf : Transform;
  m_roll : double;
  m_pitch : double;
  m_yaw : double;
  m_lastOdomTf : Transform;
  m_lastGlobalTf : Transform;
  m_doUpdate : bool;
  m_lastPeriodicUpdate : Time;
  m_backend : BackendState
}.

Definition set_m_init (v : bool) (n : DLLNode) : DLLNode :=
  mkDLLNode n v (m_tfCache n) (m_pclTf n) (m_roll n) (m_pitch n) (m_yaw n)
    (m_lastOdomTf n) (m_lastGlobalTf n) (m_doUpdate n)
    (m_lastPeriodicUpdate n) (m_backend n).

Definition set_m_tfCache (v : bool) (n : DLLNode) : DLLNode :=
  mkDLLNode n (m_init n) v (m_pclTf n) (m_roll n) (m_pitch n) (m_yaw n)
    (m_lastOdomTf n) (m_lastGlobalTf n) (m_doUpdate n)
    (m_lastPeriodicUpdate n) (m_backend n).

Definition set_m_pclTf (v : Transform) (n : DLLNode) : DLLNode :=
  mkDLLNode n (m_init n) (m_tfCache n) v (m_roll n) (m_pitch n) (m_yaw n)
    (m_lastOdomTf n) (m_lastGlobalTf n) (m_doUpdate n)
    (m_lastPeriodicUpdate n) (m_backend n).

Definition set_m_roll (v : double) (n : DLLNode) : DLLNode :=
  mkDLLNode n (m_init n) (m_tfCache n) (m_pclTf n) v (m_pitch n) (m_yaw n)
    (m_lastOdomTf n) (m_lastGlobalTf n) (m_doUpdate n)
    (m_lastPeriodicUpdate n) (m_backend n).

Definition set_m_pitch (v : double) (n : DLLNode) : DLLNode :=
  mkDLLNode n (m_init n) (m_tfCache n) (m_pclTf n) (m_roll n) v (m_yaw n)
    (m_lastOdomTf n) (m_lastGlobalTf n) (m_doUpdate n)
    (m_lastPeriodicUpdate n) (m_backend n).

Definition set_m_yaw (v : double) (n : DLLNode) : DLLNode :=
  mkDLLNode n (m_init n) (m_tfCache n) (m_pclTf n) (m_roll n) (m_pitch n) v
    (m_lastOdomTf n) (m_lastGlobalTf n) (m_doUpdate n)
    (m_lastPeriodicUpdate n) (m_backend n).

Definition set_m_lastOdomTf (v : Transform) (n : DLLNode) : DLLNode :=
  mkDLLNode n (m_init n) (m_tfCache n) (m_pclTf n) (m_roll n) (m_pitch n)
    (m_yaw n) v (m_lastGlobalTf n) (m_doUpdate n)
    (m_lastPeriodicUpdate n) (m_backend n).

Definition set_m_lastGlobalTf (v : Transform) (n : DLLNode) : DLLNode :=
  mkDLLNode n (m_init n) (m_tfCache n) (m_pclTf n) (m_roll n) (m_pitch n)
    (m_yaw n) (m_lastOdomTf n) v (m_doUpdate n)
    (m_lastPeriodicUpdate n) (m_backend n).

Definition set_m_doUpdate (v : bool) (n : DLLNode) : DLLNode :=
  mkDLLNode n (m_init n) (m_tfCache n) (m_pclTf n) (m_roll n) (m_pitch n)
    (m_yaw n) (m_lastOdomTf n) (m_lastGlobalTf n) v
    (m_lastPeriodicUpdate n) (m_backend n).

Definition set_m_lastPeriodicUpdate (v : Time) (n : DLLNode) : DLLNode :=
  mkDLLNode n (m_init n) (m_tfCache n) (m_pclTf n) (m_roll n) (m_pitch n)
    (m_yaw n) (m_lastOdomTf n) (m_lastGlobalTf n) (m_doUpdate n)
    v (m_backend n).

Definition set_m_backend (v : BackendState) (n : DLLNode) : DLLNode :=
  mkDLLNode n (m_init n) (m_tfCache n) (m_pclTf n) (m_roll n) (m_pitch n)
    (m_yaw n) (m_lastOdomTf n) (m_lastGlobalTf n) (m_doUpdate n)
    (m_lastPeriodicUpdate n) v.

(** What a callback reads from the outside while it runs: the two
    readings of [ros::Time::now()] that [checkUpdateThresholds] takes, and
    the tf listener.  [lookupTransform w target source] is [None] when
    [m_tfListener.lookupTransform] throws a [tf::TransformException]. *)
Record World : Type := mkWorld {
  now_stamp : Time;
  now : Time;
  lookupTransform : string -> string -> option Transform
}.

(** What a callback does to the outside: the broadcast of a transform,
    a log line, a call of an alignment backend with its arguments. *)
Inductive Event : Type :=
| SendTransform (t : Transform) (stamp : Time) (frame child : string)
| RosWarn
| RosError
| Align (s : Strategy) (points : list (PointXYZ float))
        (tx ty tz yaw : double).

(* ------------------------------------------------------------------ *)
(** *** checkUpdateThresholds (lines 114-168) *)

(** Marks an update as pending and restarts the period (the three
    statements each threshold branch ends with). *)
Definition trigger (t : Time) (n : DLLNode) : DLLNode :=
  set_m_lastPeriodicUpdate t (set_m_doUpdate true n).

Definition checkUpdateThresholds (n : DLLNode) (w : World)
  : bool * DLLNode * list Event :=
  (* If the filter is not initialized then exit *)
  if negb (m_init n) then (false, n, [])
  else
    (* Publish current TF from odom to map *)
    let ev := [SendTransform (m_lastGlobalTf n) (now_stamp w)
                 (m_globalFrameId n) (m_odomFrameId n)] in
    (* Compute odometric translation and rotation since last update *)
    let t := now w in
    match lookupTransform w (m_odomFrameId n) (m_baseFrameId n) with
    | None => (false, n, ev)
    | Some odomTf =>
      let T := tf_mul (tf_inverse (m_lastOdomTf n)) odomTf in
      (* Check translation threshold *)
      if v3_length (getOrigin T) >? m_dTh n then (true, trigger t n, ev)
      else
        (* Check yaw threshold *)
        let '(roll, pitch, yaw) := getRPY (getBasis T) in
        if fabs yaw >? m_aTh n then (true, trigger t n, ev)
        else
          (* Check time threshold *)
          if toSec (time_sub t (m_lastPeriodicUpdate n)) >? m_tTh n
          then (true, trigger t n, ev)
          else (false, n, ev)
    end.

(** The timer callback (lines 172-175) drops the returned flag. *)
Definition checkUpdateThresholdsTimer (n : DLLNode) (w : World)
  : DLLNode * list Event :=
  let '(_, n', ev) := checkUpdateThresholds n w in (n', ev).

(* ------------------------------------------------------------------ *)
(** *** setInitialPose and initialPoseReceived (lines 177-195, 315-359) *)

(** Return yaw from a given TF; the result is narrowed to [float]. *)
Definition getYawFromTf (pose : Transform) : float :=
  let '(roll, pitch, yaw) := getRPY (getBasis pose) in
  to_float yaw.

Definition setInitialPose (n : DLLNode) (w : World) (initPose : Transform)
  : DLLNode * list Event :=
  (* Extract TFs for future updates *)
  match lookupTransform w (m_odomFrameId n) (m_baseFrameId n) with
  | None => (n, [RosError])
  | Some odomTf =>
    let n := set_m_lastOdomTf odomTf n in
    (* Get estimated orientation from IMU if available *)
    let '(r, p, y) := getRPY (getBasis (m_lastOdomTf n)) in
    let n := if m_use_imu n then set_m_yaw y n
             else set_m_yaw y (set_m_pitch p (set_m_roll r n)) in
    (* Get position information from pose *)
    let t := getOrigin initPose in
    let n := set_m_yaw (to_double (getYawFromTf initPose)) n in
    (* Update global TF *)
    let q := setRPY (m_roll n) (m_pitch n) (m_yaw n) in
    let n := set_m_lastGlobalTf
               (tf_mul
                  (mkTransform q
                     (mkVector3 (getX t) (getY t)
                        (getZ t + m_initZOffset n)))
                  (tf_inverse (m_lastOdomTf n))) n in
    (* Prepare next iterations *)
    let n := set_m_doUpdate false n in
    let n := set_m_init true n in
    (n, [])
  end.

Definition initialPoseReceived (n : DLLNode) (w : World)
  (msg : PoseWithCovarianceStamped double) : DLLNode * list Event :=
  (* We only accept initial pose estimates in the global frame *)
  if negb (String.eqb (pose_frame_id msg) (m_globalFrameId n))
  then (n, [RosWarn])
  else
    (* Transform into the global frame *)
    let pose := poseMsgToTF (pose_pose msg) in
    (* Initialize the filter *)
    setInitialPose n w pose.

(* ------------------------------------------------------------------ *)
(** *** imuCallback (lines 198-214) *)

Definition imuCallback (n : DLLNode) (msg : Imu double) : DLLNode :=
  let r := m_roll n in
  let p := m_pitch n in
  let y := m_yaw n in
  let o := orientation msg in
  let q := quaternionMsgToTF o in
  let M := Matrix3x3_of q in
  let '(roll, pitch, yaw) := getRPY M in
  let n := set_m_yaw yaw (set_m_pitch pitch (set_m_roll roll n)) in
  if isnan (m_roll n) || isnan (m_pitch n) || isnan (m_yaw n)
  then set_m_yaw y (set_m_pitch p (set_m_roll r n))
  else n.

(* ------------------------------------------------------------------ *)
(** *** PointCloud2_to_PointXYZ (lines 361-376) *)

(** One turn of the loop: the point under the three iterators is pushed
    to the back of [out] when its squared norm lies in the band. *)
Definition keep_in_band (out : list (PointXYZ float)) (p : PointXYZ float)
  : list (PointXYZ float) :=
  let d2 := px p * px p + py p * py p + pz p * pz p in
  if (d2 >? of_int 1) && (d2 <? of_int 10000) then out ++ [p] else out.

(** [out] is cleared, the loop runs over the points of [input], and the
    function returns [true] with the filled [out]. *)
Definition PointCloud2_to_PointXYZ (input : PointCloud2 float)
  (out : list (PointXYZ float)) : bool * list (PointXYZ float) :=
  let out := @nil (PointXYZ float) in
  (true, fold_left keep_in_band (cloud_points input) out).

(* ------------------------------------------------------------------ *)
(** *** pointcloudCallback (lines 217-313) *)

(** [l[i] = v] on a vector; outside the vector nothing is written. *)
Fixpoint assign {A : Type} (i : nat) (v : A) (l : list A) : list A :=
  match l, i with
  | [], _ => []
  | _ :: l', O => v :: l'
  | a :: l', S i' => a :: assign i' v l'
  end.

(** Tilt-compensate point-cloud according to roll and pitch (lines
    277-295): the nine [float] coefficients, the [resize], and the loop
    over the indices of [downCloud]. *)
Definition tiltCompensate (roll pitch : double)
  (downCloud : list (PointXYZ float)) : list (PointXYZ float) :=
  let sr := to_float (fsin roll) in
  let cr := to_float (fcos roll) in
  let sp := to_float (fsin pitch) in
  let cp := to_float (fcos pitch) in
  let r00 := cp in      let r01 := sp * sr in  let r02 := cr * sp in
  let r10 := of_int 0 in let r11 := cr in      let r12 := - sr in
  let r20 := - sp in    let r21 := cp * sr in  let r22 := cp * cr in
  let zero := mkPointXYZ (of_int 0) (of_int 0) (of_int 0) in
  let points := repeat zero (List.length downCloud) in
  fold_left
    (fun points i =>
       let d := nth i downCloud zero in
       let x := px d in let y := py d in let z := pz d in
       assign i
         (mkPointXYZ (x * r00 + y * r01 + z * r02)
                     (x * r10 + y * r11 + z * r12)
                     (x * r20 + y * r21 + z * r22))
         points)
    (seq 0 (List.length downCloud)) points.

(** Launch DLL solver (lines 297-303): the chain of tests on
    [m_alignMethod].  The result is the new backend state, the contents
    of [tx], [ty], [tz] and [m_yaw] after the chain, and the call made. *)
Definition launchSolver (n : DLLNode) (points : list (PointXYZ float))
  (tx ty tz : double) : BackendState * Pose4 double * list Event :=
  if (m_alignMethod n =? 1)%Z then
    (solve (m_backend n) points tx ty tz (m_yaw n),
     [Align DLL points tx ty tz (m_yaw n)])
  else if (m_alignMethod n =? 2)%Z then
    (alignNDT (m_backend n) points tx ty tz (m_yaw n),
     [Align NDT points tx ty tz (m_yaw n)])
  else if (m_alignMethod n =? 3)%Z then
    (alignICP (m_backend n) points tx ty tz (m_yaw n),
     [Align ICP points tx ty tz (m_yaw n)])
  else
    (m_backend n, (tx, ty, tz, m_yaw n), []).

Definition pointcloudCallback (n : DLLNode) (w : World)
  (cloud : PointCloud2 float) : DLLNode * list Event :=
  (* If the filter is not initialized then exit *)
  if negb (m_init n) then (n, [])
  (* Check if an update must be performed or not *)
  else if negb (m_doUpdate n) then (n, [])
  else
    (* Compute odometric translation and rotation since last update *)
    match lookupTransform w (m_odomFrameId n) (m_baseFrameId n) with
    | None => (n, [RosError])
    | Some odomTf =>
      let mapTf := tf_mul (m_lastGlobalTf n) odomTf in
      (* Pre-cache transform for point-cloud to base frame *)
      let cached :=
        if negb (m_tfCache n) then
          match lookupTransform w (m_baseFrameId n) (cloud_frame_id cloud) with
          | None => None
          | Some pclTf => Some (set_m_tfCache true (set_m_pclTf pclTf n))
          end
        else Some n in
      match cached with
      | None => (n, [RosError])
      | Some n =>
        let baseCloud :=
          transformPointCloud (m_baseFrameId n) (m_pclTf n) cloud in
        (* Uniform lidar downsampling based on front view projection *)
        let downCloud := snd (PointCloud2_to_PointXYZ baseCloud []) in
        (* Get estimated position into the map *)
        let tx := getX (getOrigin mapTf) in
        let ty := getY (getOrigin mapTf) in
        let tz := getZ (getOrigin mapTf) in
        (* Get estimated orientation into the map *)
        let '(r, p, y) := getRPY (getBasis mapTf) in
        let n := if m_use_imu n then set_m_yaw y n
                 else set_m_yaw y (set_m_pitch p (set_m_roll r n)) in
        (* Tilt-compensate point-cloud according to roll and pitch *)
        let points := tiltCompensate (m_roll n) (m_pitch n) downCloud in
        (* Launch DLL solver *)
        let '(b, (tx, ty, tz, yaw), ev) := launchSolver n points tx ty tz in
        let n := set_m_yaw yaw (set_m_backend b n) in
        (* Update global TF *)
        let q := setRPY (m_roll n) (m_pitch n) (m_yaw n) in
        let n := set_m_lastGlobalTf
                   (tf_mul (mkTransform q (mkVector3 tx ty tz))
                           (tf_inverse odomTf)) n in
        (* Update time and transform information *)
        let n := set_m_lastOdomTf odomTf n in
        let n := set_m_doUpdate false n in
        (n, ev)
      end
    end.

End Node.

Arguments Params double : clear implicits.

(* ================================================================== *)
(** ** Rotation matrices

    The vocabulary in which the properties of the tilt compensation and
    of the reference transforms are stated: 3x3 matrices over a floating
    type, by rows. *)

Section LinearAlgebra.

Context {T : Type} {FT : Floating T}.

Local Open Scope fp_scope.

Record Mat3 : Type := mkMat3 {
  row0 : Vector3 T;
  row1 : Vector3 T;
  row2 : Vector3 T
}.

Definition dot (a b : Vector3 T) : T :=
  getX a * getX b + getY a * getY b + getZ a * getZ b.

Definition col0 (m : Mat3) : Vector3 T :=
  mkVector3 (getX (row0 m)) (getX (row1 m)) (getX (row2 m)).

Definition col1 (m : Mat3) : Vector3 T :=
  mkVector3 (getY (row0 m)) (getY (row1 m)) (getY (row2 m)).

Definition col2 (m : Mat3) : Vector3 T :=
  mkVector3 (getZ (row0 m)) (getZ (row1 m)) (getZ (row2 m)).

Definition transpose (m : Mat3) : Mat3 := mkMat3 (col0 m) (col1 m) (col2 m).

Definition mat_vec (m : Mat3) (v : Vector3 T) : Vector3 T :=
  mkVector3 (dot (row0 m) v) (dot (row1 m) v) (dot (row2 m) v).

Definition row_mat (r : Vector3 T) (m : Mat3) : Vector3 T :=
  mkVector3 (dot r (col0 m)) (dot r (col1 m)) (dot r (col2 m)).

Definition mat_mul (a b : Mat3) : Mat3 :=
  mkMat3 (row_mat (row0 a) b) (row_mat (row1 a) b) (row_mat (row2 a) b).

Definition mat_id : Mat3 :=
  mkMat3 (mkVector3 (of_int 1) (of_int 0) (of_int 0))
         (mkVector3 (of_int 0) (of_int 1) (of_int 0))
         (mkVector3 (of_int 0) (of_int 0) (of_int 1)).

Definition v3_add (a b : Vector3 T) : Vector3 T :=
  mkVector3 (getX a + getX b) (getY a + getY b) (getZ a + getZ b).

Definition v3_neg (a : Vector3 T) : Vector3 T :=
  mkVector3 (- getX a) (- getY a) (- getZ a).

(** The elementary rotations about x and y, from a cosine and a sine. *)
Definition Rx (c s : T) : Mat3 :=
  mkMat3 (mkVector3 (of_int 1) (of_int 0) (of_int 0))
         (mkVector3 (of_int 0) c (- s))
         (mkVector3 (of_int 0) s c).

Definition Ry (c s : T) : Mat3 :=
  mkMat3 (mkVector3 c (of_int 0) s)
         (mkVector3 (of_int 0) (of_int 1) (of_int 0))
         (mkVector3 (- s) (of_int 0) c).

Definition vec_of_point (p : PointXYZ T) : Vector3 T :=
  mkVector3 (px p) (py p) (pz p).

Definition point_of_vec (v : Vector3 T) : PointXYZ T :=
  mkPointXYZ (getX v) (getY v) (getZ v).

(** A matrix applied to a point: each coordinate of the image is the
    product of a row with the point, the coordinate of the point written
    first in every product. *)
Definition rotate (m : Mat3) (p : PointXYZ T) : PointXYZ T :=
  mkPointXYZ (dot (vec_of_point p) (row0 m))
             (dot (vec_of_point p) (row1 m))
             (dot (vec_of_point p) (row2 m)).

(** The laws of a commutative ring on the operations of [T], with
    [x - y] read as [x + - y]. *)
Definition exact_arithmetic : Prop :=
  ring_theory (of_int 0) (of_int 1) fadd fmul
    (fun x y => x + - y) fneg (@eq T).

End LinearAlgebra.

Arguments Mat3 T : clear implicits.

(* ================================================================== *)
(** ** A reference model of the external libraries

    The node's theorems hold for every implementation of the interfaces.
    To run the node on concrete inputs the interfaces are also given one
    implementation, generic in the scalar type: transforms are a rotation
    matrix with an origin, composed and inverted as rigid motions, and the
    Euler angles follow tf's fixed-axis roll, pitch, yaw convention. *)

(** The arithmetic tf needs beyond what the node itself uses. *)
Class TfScalar (S : Type) : Type := {
  fsub : S -> S -> S;
  fdiv : S -> S -> S;
  fsqrt : S -> S;
  fasin : S -> S;
  fatan2 : S -> S -> S;
  fge : S -> S -> bool;
  fpi : S
}.

Section Reference.

Context {S : Type} {FS : Floating S} {LS : Libm S} {TS : TfScalar S}.

Local Open Scope fp_scope.

Record Quat : Type := mkQuat {
  quat_x : S;
  quat_y : S;
  quat_z : S;
  quat_w : S
}.

Record Rigid : Type := mkRigid {
  basis : Mat3 S;
  origin : Vector3 S
}.

Definition ref_length (v : Vector3 S) : S := fsqrt (dot v v).

Definition quat_length2 (q : Quat) : S :=
  quat_x q * quat_x q + quat_y q * quat_y q + quat_z q * quat_z q
  + quat_w q * quat_w q.

(** [Matrix3x3::setRotation]. *)
Definition ref_Matrix3x3_of (q : Quat) : Mat3 S :=
  let d := quat_length2 q in
  let s := fdiv (of_int 2) d in
  let xs := quat_x q * s in let ys := quat_y q * s in
  let zs := quat_z q * s in
  let wx := quat_w q * xs in let wy := quat_w q * ys in
  let wz := quat_w q * zs in
  let xx := quat_x q * xs in let xy := quat_x q * ys in
  let xz := quat_x q * zs in
  let yy := quat_y q * ys in let yz := quat_y q * zs in
  let zz := quat_z q * zs in
  mkMat3
    (mkVector3 (fsub (of_int 1) (yy + zz)) (fsub xy wz) (xz + wy))
    (mkVector3 (xy + wz) (fsub (of_int 1) (xx + zz)) (fsub yz wx))
    (mkVector3 (fsub xz wy) (yz + wx) (fsub (of_int 1) (xx + yy))).

(** [Matrix3x3::getRPY]: the first solution of [getEulerYPR]. *)
Definition ref_getRPY (m : Mat3 S) : S * S * S :=
  let m20 := getX (row2 m) in
  if fge (fabs m20) (of_int 1) then
    let delta := fatan2 (getY (row2 m)) (getZ (row2 m)) in
    if m20 <? of_int 0
    then (delta, fdiv fpi (of_int 2), of_int 0)
    else (delta, fdiv (- fpi) (of_int 2), of_int 0)
  else
    let pitch := - fasin m20 in
    let roll := fatan2 (fdiv (getY (row2 m)) (fcos pitch))
                       (fdiv (getZ (row2 m)) (fcos pitch)) in
    let yaw := fatan2 (fdiv (getX (row1 m)) (fcos pitch))
                      (fdiv (getX (row0 m)) (fcos pitch)) in
    (roll, pitch, yaw).

(** [Quaternion::setRPY]. *)
Definition ref_setRPY (roll pitch yaw : S) : Quat :=
  let half := fdiv (of_int 1) (of_int 2) in
  let cy := fcos (yaw * half) in let sy := fsin (yaw * half) in
  let cp := fcos (pitch * half) in let sp := fsin (pitch * half) in
  let cr := fcos (roll * half) in let sr := fsin (roll * half) in
  mkQuat (fsub (sr * cp * cy) (cr * sp * sy))
         (cr * sp * cy + sr * cp * sy)
         (fsub (cr * cp * sy) (sr * sp * cy))
         (cr * cp * cy + sr * sp * sy).

Definition ref_mkTransform (q : Quat) (c : Vector3 S) : Rigid :=
  mkRigid (ref_Matrix3x3_of q) c.

Definition ref_identity : Rigid :=
  mkRigid mat_id (mkVector3 (of_int 0) (of_int 0) (of_int 0)).

(** [Transform::operator*]: the bases are multiplied, and the origin of
    the right factor is mapped through the left one. *)
Definition ref_mul (a b : Rigid) : Rigid :=
  mkRigid (mat_mul (basis a) (basis b))
          (v3_add (mat_vec (basis a) (origin b)) (origin a)).

(** [Transform::inverse]: the basis is transposed. *)
Definition ref_inverse (a : Rigid) : Rigid :=
  let inv := transpose (basis a) in
  mkRigid inv (mat_vec inv (v3_neg (origin a))).

(** [tf::quaternionMsgToTF]: a quaternion whose squared norm is further
    than 0.1 from one is normalized. *)
Definition ref_quaternionMsgToTF (msg : QuaternionMsg S) : Quat :=
  let bt := mkQuat (msg_x msg) (msg_y msg) (msg_z msg) (msg_w msg) in
  if fabs (fsub (quat_length2 bt) (of_int 1)) >? fdiv (of_int 1) (of_int 10)
  then
    let l := fsqrt (quat_length2 bt) in
    mkQuat (fdiv (quat_x bt) l) (fdiv (quat_y bt) l)
           (fdiv (quat_z bt) l) (fdiv (quat_w bt) l)
  else bt.

Definition ref_poseMsgToTF (msg : PoseMsg S) : Rigid :=
  mkRigid (ref_Matrix3x3_of (ref_quaternionMsgToTF (pose_orientation msg)))
          (position msg).

Definition RefTf : TfLib S := {|
  Matrix3x3 := Mat3 S;
  Quaternion := Quat;
  Transform := Rigid;
  getOrigin := origin;
  getBasis := basis;
  v3_length := ref_length;
  getRPY := ref_getRPY;
  setRPY := ref_setRPY;
  Matrix3x3_of := ref_Matrix3x3_of;
  mkTransform := ref_mkTransform;
  tf_identity := ref_identity;
  tf_mul := ref_mul;
  tf_inverse := ref_inverse;
  quaternionMsgToTF := ref_quaternionMsgToTF;
  poseMsgToTF := ref_poseMsgToTF
|}.

(** [pcl_ros::transformPointCloud]: the cloud moved point by point into
    the target frame. *)
Definition ref_transformPointCloud (frame : string) (t : Rigid)
  (cloud : PointCloud2 S) : PointCloud2 S :=
  mkPointCloud2 frame
    (map (fun p => point_of_vec
                     (v3_add (mat_vec (basis t) (vec_of_point p)) (origin t)))
         (cloud_points cloud)).

(** Time in seconds. *)
Definition RefRos : @RosLib S S RefTf :=
  @Build_RosLib S S RefTf S S fsub (fun d => d) ref_transformPointCloud.

Definition RefConv : Conv S S := {|
  to_float := fun x => x;
  to_double := fun x => x
|}.

(** Backends without a state that hand the guess back: the least an
    alignment may do. *)
Definition keep_guess : AlignFn unit S S :=
  fun b points tx ty tz yaw => (b, (tx, ty, tz, yaw)).

Definition RefBackend : Backend S S := {|
  BackendState := unit;
  solve := keep_guess;
  alignNDT := keep_guess;
  alignICP := keep_guess
|}.

End Reference.

Arguments Quat S : clear implicits.
Arguments Rigid S : clear implicits.

(* ================================================================== *)
(** ** Three scalar types *)

(** *** Exact real arithmetic

    The reals: the arithmetic in which the algebra of rigid motions
    holds.  No real is a NaN. *)

Open Scope R_scope.

Definition R_gt (x y : R) : bool := if Rgt_dec x y then true else false.
Definition R_lt (x y : R) : bool := if Rlt_dec x y then true else false.
Definition R_ge (x y : R) : bool := if Rge_dec x y then true else false.

(** [atan2] by the quadrant of [(x, y)]. *)
Definition R_atan2 (y x : R) : R :=
  if Rlt_dec 0 x then atan (y / x)
  else if Rlt_dec x 0 then
    if Rle_dec 0 y then atan (y / x) + PI else atan (y / x) - PI
  else
    if Rlt_dec 0 y then PI / 2
    else if Rlt_dec y 0 then - PI / 2 else 0.

#[global] Instance R_Floating : Floating R := {|
  of_int := IZR;
  fadd := Rplus;
  fmul := Rmult;
  fneg := Ropp;
  fgt := R_gt;
  flt := R_lt;
  fabs := Rabs;
  isnan := fun _ => false
|}.

#[global] Instance R_Libm : Libm R := {| fsin := sin; fcos := cos |}.

#[global] Instance R_TfScalar : TfScalar R := {|
  fsub := Rminus;
  fdiv := Rdiv;
  fsqrt := sqrt;
  fasin := asin;
  fatan2 := R_atan2;
  fge := R_ge;
  fpi := PI
|}.


(** *** Reals with a NaN

    [None] is the NaN: it is what an operation returns outside its
    domain, every operation propagates it, and every comparison with it
    is false. *)

Definition Rnan : Type := option R.

Definition lift1 (f : R -> R) (a : Rnan) : Rnan :=
  match a with Some x => Some (f x) | None => None end.

Definition lift2 (f : R -> R -> R) (a b : Rnan) : Rnan :=
  match a, b with Some x, Some y => Some (f x y) | _, _ => None end.

Definition cmp2 (f : R -> R -> bool) (a b : Rnan) : bool :=
  match a, b with Some x, Some y => f x y | _, _ => false end.

Definition Rnan_div (a b : Rnan) : Rnan :=
  match a, b with
  | Some x, Some y => if Req_dec_T y 0 then None else Some (x / y)
  | _, _ => None
  end.

Definition Rnan_sqrt (a : Rnan) : Rnan :=
  match a with
  | Some x => if Rlt_dec x 0 then None else Some (sqrt x)
  | None => None
  end.

Definition Rnan_asin (a : Rnan) : Rnan :=
  match a with
  | Some x => if R_gt (Rabs x) 1 then None else Some (asin x)
  | None => None
  end.

Definition Rnan_isnan (a : Rnan) : bool :=
  match a with Some _ => false | None => true end.

#[global] Instance Rnan_Floating : Floating Rnan := {|
  of_int := fun z => Some (IZR z);
  fadd := lift2 Rplus;
  fmul := lift2 Rmult;
  fneg := lift1 Ropp;
  fgt := cmp2 R_gt;
  flt := cmp2 R_lt;
  fabs := lift1 Rabs;
  isnan := Rnan_isnan
|}.

#[global] Instance Rnan_Libm : Libm Rnan := {|
  fsin := lift1 sin;
  fcos := lift1 cos
|}.

#[global] Instance Rnan_TfScalar : TfScalar Rnan := {|
  fsub := lift2 Rminus;
  fdiv := Rnan_div;
  fsqrt := Rnan_sqrt;
  fasin := Rnan_asin;
  fatan2 := lift2 R_atan2;
  fge := cmp2 R_ge;
  fpi := Some PI
|}.


Close Scope R_scope.

(** *** IEEE 754 binary32

    The [float] of the point coordinates, with the rounding of every
    operation: SpecFloat at precision 24 and maximal exponent 128. *)

Definition b32_isnan (x : spec_float) : bool :=
  match x with S754_nan => true | _ => false end.

Definition binary32 : Floating spec_float := {|
  of_int := fun z => binary_normalize 24 128 z 0 false;
  fadd := SFadd 24 128;
  fmul := SFmul 24 128;
  fneg := SFopp;
  fgt := fun a b => SFltb b a;
  flt := SFltb;
  fabs := SFabs;
  isnan := b32_isnan
|}.

(** A binary32 value that is a number: a zero or a finite value, neither
    an infinity nor a NaN. *)
Definition b32_finite (x : spec_float) : bool :=
  match x with
  | S754_zero _ | S754_finite _ _ _ => true
  | S754_infinity _ | S754_nan => false
  end.

(** A binary32 value that a sum of squares ends in once a term is not a
    number: a NaN or the positive infinity. *)
Definition b32_blown (d : spec_float) : Prop :=
  d = S754_nan \/ d = S754_infinity false.

(** *** IEEE 754 binary64

    The [double] of tf and of the node's poses, with the rounding of every
    operation: SpecFloat at precision 53 and maximal exponent 1024. *)

Definition b64_isnan (x : spec_float) : bool :=
  match x with S754_nan => true | _ => false end.

Definition binary64 : Floating spec_float := {|
  of_int := fun z => binary_normalize 53 1024 z 0 false;
  fadd := SFadd 53 1024;
  fmul := SFmul 53 1024;
  fneg := SFopp;
  fgt := fun a b => SFltb b a;
  flt := SFltb;
  fabs := SFabs;
  isnan := b64_isnan
|}.

(** libm at the arguments where the C standard fixes the result: the
    sine and the arc sine of a zero are that zero, the cosine of a zero
    is one, and [atan2] of a zero and a positive number is that zero.
    Every other argument, for which libm rounds a transcendental value,
    is left undetermined and reads as a NaN. *)
Definition b64_sin (x : spec_float) : spec_float :=
  match x with S754_zero _ => x | _ => S754_nan end.

Definition b64_cos (x : spec_float) : spec_float :=
  match x with
  | S754_zero _ => binary_normalize 53 1024 1 0 false
  | _ => S754_nan
  end.

Definition b64_atan2 (y x : spec_float) : spec_float :=
  match y, x with
  | S754_zero _, S754_finite false _ _ => y
  | _, _ => S754_nan
  end.

Definition b64_Libm : Libm spec_float := {|
  fsin := b64_sin;
  fcos := b64_cos
|}.

(** The double nearest to pi. *)
Definition b64_pi : spec_float := S754_finite false 7074237752028440 (-51).

Definition b64_TfScalar : TfScalar spec_float := {|
  fsub := SFsub 53 1024;
  fdiv := SFdiv 53 1024;
  fsqrt := SFsqrt 53 1024;
  fasin := b64_sin;
  fatan2 := b64_atan2;
  fge := fun a b => SFleb b a;
  fpi := b64_pi
|}.

(* ================================================================== *)
(** ** Vocabulary of the properties *)

Section Vocabulary.

Context {double float : Type}.
Context {FD : Floating double} {FF : Floating float}.
Context {LM : Libm double} {CV : Conv double float}.
Context {TF : TfLib double} {ROS : @RosLib double float TF}.
Context {BE : Backend double float}.

Local Open Scope fp_scope.

Definition roll_of (rpy : double * double * double) : double := fst (fst rpy).
Definition pitch_of (rpy : double * double * double) : double := snd (fst rpy).
Definition yaw_of (rpy : double * double * double) : double := snd rpy.

(** The squared distance of a point from the origin, as the filter
    computes it, and the band it tests. *)
Definition squared_range (p : PointXYZ float) : float :=
  px p * px p + py p * py p + pz p * pz p.

Definition in_band (p : PointXYZ float) : bool :=
  (squared_range p >? of_int 1) && (squared_range p <? of_int 10000).

(** The tilt matrix of a roll and a pitch, by its rows, from the
    single-precision sines and cosines. *)
Definition tilt_matrix (roll pitch : double) : Mat3 float :=
  let sr := to_float (fsin roll) in
  let cr := to_float (fcos roll) in
  let sp := to_float (fsin pitch) in
  let cp := to_float (fcos pitch) in
  mkMat3 (mkVector3 cp (sp * sr) (cr * sp))
         (mkVector3 (of_int 0) cr (- sr))
         (mkVector3 (- sp) (cp * sr) (cp * cr)).

(** The Euler angles an IMU message decodes to. *)
Definition decodeRPY (msg : Imu double) : double * double * double :=
  getRPY (Matrix3x3_of (quaternionMsgToTF (orientation msg))).

Definition has_nan (rpy : double * double * double) : bool :=
  isnan (roll_of rpy) || isnan (pitch_of rpy) || isnan (yaw_of rpy).

Definition stored_rpy (n : DLLNode) : double * double * double :=
  (m_roll n, m_pitch n, m_yaw n).

(** A registration cycle runs: the filter is initialized, an update is
    pending, the odometry lookup gives [odomTf], and the transform of the
    cloud into the base frame is [pclTf], from the cache or looked up. *)
Definition registration_runs (n : DLLNode) (w : World)
  (cloud : PointCloud2 float) (odomTf pclTf : Transform) : Prop :=
  m_init n = true /\ m_doUpdate n = true /\
  lookupTransform w (m_odomFrameId n) (m_baseFrameId n) = Some odomTf /\
  (if m_tfCache n then m_pclTf n = pclTf
   else lookupTransform w (m_baseFrameId n) (cloud_frame_id cloud)
        = Some pclTf).

(** The odometry-propagated prior pose of a cycle. *)
Definition prior_pose (n : DLLNode) (odomTf : Transform) : Transform :=
  tf_mul (m_lastGlobalTf n) odomTf.

Definition prior_rpy (n : DLLNode) (odomTf : Transform)
  : double * double * double :=
  getRPY (getBasis (prior_pose n odomTf)).

(** The roll and pitch a cycle works with. *)
Definition cycle_roll (n : DLLNode) (odomTf : Transform) : double :=
  if m_use_imu n then m_roll n else roll_of (prior_rpy n odomTf).

Definition cycle_pitch (n : DLLNode) (odomTf : Transform) : double :=
  if m_use_imu n then m_pitch n else pitch_of (prior_rpy n odomTf).

(** The candidate points of a cycle: the cloud in the base frame,
    filtered to the band. *)
Definition candidate_points (n : DLLNode) (pclTf : Transform)
  (cloud : PointCloud2 float) : list (PointXYZ float) :=
  snd (PointCloud2_to_PointXYZ
         (transformPointCloud (m_baseFrameId n) pclTf cloud) []).

(** The strategy a value of [align_method] stands for. *)
Definition strategy_of (m : Z) : option Strategy :=
  if (m =? 1)%Z then Some DLL
  else if (m =? 2)%Z then Some NDT
  else if (m =? 3)%Z then Some ICP
  else None.

Definition backend_of (s : Strategy) : AlignFn BackendState double float :=
  match s with DLL => solve | NDT => alignNDT | ICP => alignICP end.

(** The pose a cycle ends with: what the chosen backend returns on the
    guess, or the guess itself when no backend is chosen. *)
Definition refined_pose (n : DLLNode) (points : list (PointXYZ float))
  (guess : Pose4 double) : Pose4 double :=
  let '(tx, ty, tz, yaw) := guess in
  match strategy_of (m_alignMethod n) with
  | Some s => snd (backend_of s (m_backend n) points tx ty tz yaw)
  | None => guess
  end.

(** The backend state a cycle ends with. *)
Definition refined_backend (n : DLLNode) (points : list (PointXYZ float))
  (guess : Pose4 double) : BackendState :=
  let '(tx, ty, tz, yaw) := guess in
  match strategy_of (m_alignMethod n) with
  | Some s => fst (backend_of s (m_backend n) points tx ty tz yaw)
  | None => m_backend n
  end.

(** The laws of composition a cycle relies on: composition is
    associative, the identity is neutral on the right, and [odomTf]
    composed with its inverse is the identity. *)
Definition composition_laws (odomTf : Transform) : Prop :=
  (forall a b c : Transform,
     tf_mul (tf_mul a b) c = tf_mul a (tf_mul b c)) /\
  (forall a : Transform, tf_mul a tf_identity = a) /\
  tf_mul (tf_inverse odomTf) odomTf = tf_identity.

(** The last message of a run of IMU messages that decodes without a
    NaN, if there is one. *)
Definition last_valid_rpy (msgs : list (Imu double))
  : option (double * double * double) :=
  fold_left
    (fun acc msg => if has_nan (decodeRPY msg) then acc
                    else Some (decodeRPY msg))
    msgs None.

Definition pose_tx (p : Pose4 double) : double := fst (fst (fst p)).
Definition pose_ty (p : Pose4 double) : double := snd (fst (fst p)).
Definition pose_tz (p : Pose4 double) : double := snd (fst p).
Definition pose_yaw (p : Pose4 double) : double := snd p.

(** The initial guess of a cycle: the translation and the yaw of the
    prior pose. *)
Definition prior_guess (n : DLLNode) (odomTf : Transform) : Pose4 double :=
  (getX (getOrigin (prior_pose n odomTf)),
   getY (getOrigin (prior_pose n odomTf)),
   getZ (getOrigin (prior_pose n odomTf)),
   yaw_of (prior_rpy n odomTf)).

(** The points a cycle hands to the backend. *)
Definition solver_points (n : DLLNode) (odomTf pclTf : Transform)
  (cloud : PointCloud2 float) : list (PointXYZ float) :=
  tiltCompensate (cycle_roll n odomTf) (cycle_pitch n odomTf)
    (candidate_points n pclTf cloud).

(** The backend calls of a cycle on given points and a given guess. *)
Definition align_events (n : DLLNode) (points : list (PointXYZ float))
  (guess : Pose4 double) : list Event :=
  match strategy_of (m_alignMethod n) with
  | Some s => [Align s points (pose_tx guess) (pose_ty guess)
                 (pose_tz guess) (pose_yaw guess)]
  | None => []
  end.

(** The rigid transform of a pose: the translation with the rotation of
    the roll, pitch and yaw. *)
Definition pose_transform (roll pitch : double) (p : Pose4 double)
  : Transform :=
  mkTransform (setRPY roll pitch (pose_yaw p))
    (mkVector3 (pose_tx p) (pose_ty p) (pose_tz p)).

(** What ROS delivers to the node: an IMU message, a tick of the update
    timer, an initial pose, a point cloud; the last three with the world
    the callback runs in. *)
Inductive Input : Type :=
| InImu (msg : Imu double)
| InTimer (w : World)
| InPose (w : World) (msg : PoseWithCovarianceStamped double)
| InCloud (w : World) (cloud : PointCloud2 float).

(** The callbacks run one at a time.  The constructor subscribes
    [imuCallback] only when [m_use_imu] is set (lines 81-82), so without it
    an IMU message reaches nothing. *)
Definition deliver (n : DLLNode) (i : Input) : DLLNode :=
  match i with
  | InImu msg => if m_use_imu n then imuCallback n msg else n
  | InTimer w => fst (checkUpdateThresholdsTimer n w)
  | InPose w msg => fst (initialPoseReceived n w msg)
  | InCloud w cloud => fst (pointcloudCallback n w cloud)
  end.

Definition run (n : DLLNode) (history : list Input) : DLLNode :=
  fold_left deliver history n.

(** The IMU messages of a history, in order. *)
Definition imu_messages (history : list Input) : list (Imu double) :=
  flat_map (fun i => match i with InImu msg => [msg] | _ => [] end) history.

End Vocabulary.

(* ================================================================== *)
(** ** A scene

    One node, one world and one cloud in the reference model, over any
    scalar type: the robot stands one metre ahead and two to the left of
    the odometry origin, turned a quarter turn, the lidar sits on the
    base, and the cloud has a point inside the band between two outside. *)

Section Scene.

Context {S : Type} {FS : Floating S} {LS : Libm S} {TS : TfScalar S}.

#[local] Existing Instances RefTf RefRos RefConv RefBackend.

Definition quarter_turn : Mat3 S :=
  mkMat3 (mkVector3 (of_int 0) (fneg (of_int 1)) (of_int 0))
         (mkVector3 (of_int 1) (of_int 0) (of_int 0))
         (mkVector3 (of_int 0) (of_int 0) (of_int 1)).

Definition scene_odom : Rigid S :=
  mkRigid quarter_turn (mkVector3 (of_int 1) (of_int 2) (of_int 0)).

Definition scene_lidar : Rigid S := ref_identity.

Definition scene_lookup (target source : string) : option (Rigid S) :=
  if String.eqb target "odom" && String.eqb source "base_link"
  then Some scene_odom
  else if String.eqb target "base_link" && String.eqb source "velodyne"
  then Some scene_lidar
  else None.

Definition scene_world : World := mkWorld (of_int 5) (of_int 5) scene_lookup.

Definition scene_params (use_imu : bool) (align_method : Z) : Params S :=
  mkParams use_imu (of_int 0) (of_int 1) (of_int 1) (of_int 1)
    align_method "base_link" "odom" "map".

(** A node that is initialized and has an update pending. *)
Definition scene_node (use_imu : bool) (align_method : Z) : DLLNode :=
  mkDLLNode (scene_params use_imu align_method)
    true false ref_identity (of_int 0) (of_int 0) (of_int 0)
    ref_identity ref_identity true (of_int 0) tt.

Definition scene_cloud : PointCloud2 S :=
  mkPointCloud2 "velodyne"
    [ mkPointXYZ (of_int 1) (of_int 0) (of_int 0);
      mkPointXYZ (of_int 0) (of_int 3) (of_int 4);
      mkPointXYZ (of_int 100) (of_int 0) (of_int 0) ].

(** An initial pose in the odometry frame, which is not the global one. *)
Definition scene_pose_in_odom : PoseWithCovarianceStamped S :=
  mkPoseStamped "odom"
    (mkPoseMsg (mkVector3 (of_int 3) (of_int 4) (of_int 0))
               (mkQuaternionMsg (of_int 0) (of_int 0) (of_int 0) (of_int 1))).

End Scene.

(** An IMU message whose orientation holds a NaN. *)
Definition imu_with_nan : Imu Rnan :=
  mkImu (mkQuaternionMsg None (Some 0%R) (Some 0%R) (Some 1%R)).

(* ================================================================== *)
(** ** The constructor (lines 31-106) *)

(** What the constructor needs of a [double] beyond [Floating]: a decimal
    literal ([of_decimal m e] is the double written [m * 10^e], as [0.1])
    and the comparison [!=]. *)
Class DoubleLit (T : Type) : Type := {
  of_decimal : Z -> Z -> T;
  fne : T -> T -> bool
}.

(** The private parameters of the node as [lnh.getParam] finds them:
    [None] where [getParam] returns [false]. *)
Record Launch (double : Type) : Type := mkLaunch {
  in_cloud : option string;
  base_frame_id : option string;
  odom_frame_id : option string;
  global_frame_id : option string;
  use_imu : option bool;
  update_rate : option double;
  initial_x : option double;
  initial_y : option double;
  initial_z : option double;
  initial_a : option double;
  update_min_d : option double;
  update_min_a : option double;
  update_min_time : option double;
  initial_z_offset : option double;
  align_method : option Z
}.

(** [if(!lnh.getParam(name, var)) var = def;] *)
Definition getParam {A : Type} (found : option A) (def : A) : A :=
  match found with Some v => v | None => def end.

Section Constructor.

Context {double float : Type}.
Context {FD : Floating double} {DL : DoubleLit double}.
Context {CV : Conv double float}.
Context {TF : TfLib double} {ROS : @RosLib double float TF}.
Context {BE : Backend double float}.

(** The constructor.  [backend] is the state of [m_grid3d] and [m_solver]
    once built and interpolated; [unset_pcl] and [unset_odom] are the
    contents of the default-constructed [m_pclTf] and [m_lastOdomTf],
    which the constructor does not initialize; [w] is the world it runs
    in.  The subscriptions and the timer are ROS handles and are left
    out, so is [m_inCloudTopic], which only the subscription reads, and
    [m_updateRate], which only the timer reads. *)
Definition DLLNode_new (lp : Launch double) (backend : BackendState)
  (unset_pcl unset_odom : Transform) (w : World) : DLLNode * list Event :=
  (* Read node parameters *)
  let m_baseFrameId := getParam (base_frame_id lp) "base_link"%string in
  let m_odomFrameId := getParam (odom_frame_id lp) "odom"%string in
  let m_globalFrameId := getParam (global_frame_id lp) "map"%string in
  let m_use_imu := getParam (use_imu lp) false in
  let m_roll := of_int 0 in
  let m_pitch := of_int 0 in
  let m_yaw := of_int 0 in
  (* Read DLL parameters *)
  let m_initX := getParam (initial_x lp) (of_int 0) in
  let m_initY := getParam (initial_y lp) (of_int 0) in
  let m_initZ := getParam (initial_z lp) (of_int 0) in
  let m_initA := getParam (initial_a lp) (of_int 0) in
  let m_dTh := getParam (update_min_d lp) (of_decimal 1 (-1)) in
  let m_aTh := getParam (update_min_a lp) (of_decimal 1 (-1)) in
  let m_tTh := getParam (update_min_time lp) (of_int 1) in
  let m_initZOffset := getParam (initial_z_offset lp) (of_int 0) in
  let m_alignMethod := getParam (align_method lp) 1%Z in
  (* Init internal variables *)
  let m_init := false in
  let m_doUpdate := false in
  let m_tfCache := false in
  (* Time stamp for periodic update *)
  let m_lastPeriodicUpdate := now w in
  (* Initialize TF from odom to map as identity *)
  let m_lastGlobalTf := tf_identity in
  let n :=
    mkDLLNode
      (mkParams m_use_imu m_initZOffset m_dTh m_aTh m_tTh m_alignMethod
         m_baseFrameId m_odomFrameId m_globalFrameId)
      m_init m_tfCache unset_pcl m_roll m_pitch m_yaw unset_odom
      m_lastGlobalTf m_doUpdate m_lastPeriodicUpdate backend in
  if fne m_initX (of_int 0) || fne m_initY (of_int 0)
     || fne m_initZ (of_int 0) || fne m_initA (of_int 0)
  then
    let q := setRPY (of_int 0) (of_int 0) m_initA in
    let pose := mkTransform q (mkVector3 m_initX m_initY m_initZ) in
    let '(n, ev) := setInitialPose n w pose in
    (set_m_init true n, ev)
  else (n, []).

(** An initial pose is configured: one of the four parameters is set to
    a value that [!=] tells from zero. *)
Definition initial_pose_configured (lp : Launch double) : bool :=
  fne (getParam (initial_x lp) (of_int 0)) (of_int 0)
  || fne (getParam (initial_y lp) (of_int 0)) (of_int 0)
  || fne (getParam (initial_z lp) (of_int 0)) (of_int 0)
  || fne (getParam (initial_a lp) (of_int 0)) (of_int 0).

End Constructor.

(* ================================================================== *)
(** ** Histories with their events *)

Section Traces.

Context {double float : Type}.
Context {FD : Floating double} {FF : Floating float}.
Context {LM : Libm double} {CV : Conv double float}.
Context {TF : TfLib double} {ROS : @RosLib double float TF}.
Context {BE : Backend double float}.

(** What the delivery of one input does to the outside. *)
Definition deliver_events (n : DLLNode) (i : Input) : list Event :=
  match i with
  | InImu msg => []
  | InTimer w => snd (checkUpdateThresholdsTimer n w)
  | InPose w msg => snd (initialPoseReceived n w msg)
  | InCloud w cloud => snd (pointcloudCallback n w cloud)
  end.

(** The events of a history, in order. *)
Fixpoint trace (n : DLLNode) (history : list Input) : list Event :=
  match history with
  | [] => []
  | i :: history' => deliver_events n i ++ trace (deliver n i) history'
  end.


Definition is_cloud (i : Input) : bool :=
  match i with InCloud _ _ => true | _ => false end.

Definition is_align (e : Event) : bool :=
  match e with Align _ _ _ _ _ _ => true | _ => false end.

Definition is_timer (i : Input) : bool :=
  match i with InTimer _ => true | _ => false end.

(** The number of backend calls among events. *)
Definition align_count (ev : list Event) : nat :=
  List.length (filter is_align ev).

Definition is_imu (i : Input) : bool :=
  match i with InImu _ => true | _ => false end.

End Traces.

(** The constructor's literals and [!=] over the reals, and over the
    reals with a NaN (a NaN differs from everything). *)
Definition R_ne (x y : R) : bool :=
  if Req_dec_T x y then false else true.

#[global] Instance R_DoubleLit : DoubleLit R := {|
  of_decimal := fun m e => (IZR m * powerRZ 10 e)%R;
  fne := R_ne
|}.

#[global] Instance Rnan_DoubleLit : DoubleLit Rnan := {|
  of_decimal := fun m e => Some (IZR m * powerRZ 10 e)%R;
  fne := fun a b =>
    match a, b with Some x, Some y => R_ne x y | _, _ => true end
|}.

(** More of the scene: an empty cloud, an initial pose in the global
    frame, an IMU message, and a node whose sensor transform is cached
    or whose filter is not initialized. *)
Section MoreScene.

Context {S : Type} {FS : Floating S} {LS : Libm S} {TS : TfScalar S}.

#[local] Existing Instances RefTf RefRos RefConv RefBackend.

Definition scene_empty_cloud : PointCloud2 S := mkPointCloud2 "velodyne" [].

Definition scene_pose_in_map : PoseWithCovarianceStamped S :=
  mkPoseStamped "map"
    (mkPoseMsg (mkVector3 (of_int 3) (of_int 4) (of_int 0))
               (mkQuaternionMsg (of_int 0) (of_int 0) (of_int 0) (of_int 1))).

Definition scene_imu : Imu S :=
  mkImu (mkQuaternionMsg (of_int 0) (of_int 0) (of_int 0) (of_int 1)).

Definition scene_node_cached : DLLNode :=
  set_m_tfCache true (scene_node false 1).


End MoreScene.

(** A scene in binary64: the odometry places the base one metre ahead of
    the odometry origin, without any rotation; the maintained global
    transform is the identity; the backends are stateless and settle the
    pose at x = 1/10 (the double nearest to a tenth), leaving y, z and the
    yaw as guessed.  Every angle of the scene is a zero, so libm is called
    only where the C standard fixes its result. *)
Section DoubleScene.

Definition settle_at_tenth : AlignFn unit spec_float spec_float :=
  fun b points tx ty tz yaw =>
    (b, (SFdiv 53 1024 (binary_normalize 53 1024 1 0 false)
                       (binary_normalize 53 1024 10 0 false), ty, tz, yaw)).

Definition SettleBackend : Backend spec_float spec_float := {|
  BackendState := unit;
  solve := settle_at_tenth;
  alignNDT := settle_at_tenth;
  alignICP := settle_at_tenth
|}.

#[local] Existing Instances binary64 b64_Libm b64_TfScalar.
#[local] Existing Instances RefTf RefRos RefConv SettleBackend.






End DoubleScene.

(** A binary32 point whose x coordinate is a NaN. *)
Definition b32_point_with_nan : PointXYZ spec_float :=
  mkPointXYZ S754_nan (S754_zero false) (S754_zero false).

(** A launch without any parameter, and one with [initial_x = 3]. *)
Definition launch_default (double : Type) : Launch double :=
  mkLaunch None None None None None None None None None None None None None
    None None.

Definition launch_at_3 : Launch R :=
  mkLaunch None None None None None None (Some 3%R) None None None None None
    None None None.

(* ================================================================== *)
(** ** Properties of the node, for every implementation of the
       interfaces *)

Section NodeProperties.

Context {double float : Type}.
Context {FD : Floating double} {FF : Floating float}.
Context {LM : Libm double} {CV : Conv double float}.
Context {TF : TfLib double} {ROS : @RosLib double float TF}.
Context {BE : Backend double float}.

Local Open Scope fp_scope.

(* ------------------------------------------------------------------ *)
(** *** The gate *)

Lemma trigger_pending (t : Time) (n : DLLNode) :
  m_doUpdate (trigger t n) = true /\ m_lastPeriodicUpdate (trigger t n) = t.
Proof. split; reflexivity. Qed.

(** C1. [checkUpdateThresholds] returns [true] exactly when the filter is
    initialized, the odom-to-base lookup succeeds and one of the three
    thresholds is exceeded: the length of the translation since the last
    registration against [update_min_d], the absolute yaw since then
    against [update_min_a], the time since the last trigger against
    [update_min_time].  When it returns [true] the update is pending (and
    the period restarts); when it returns [false] the node, its pending
    flag included, is unchanged. *)
Theorem checkUpdateThresholds_decision :
  forall (n : DLLNode) (w : World),
    let r := fst (fst (checkUpdateThresholds n w)) in
    let n' := snd (fst (checkUpdateThresholds n w)) in
    (r = true <->
       m_init n = true /\
       exists odomTf,
         lookupTransform w (m_odomFrameId n) (m_baseFrameId n) = Some odomTf /\
         let T := tf_mul (tf_inverse (m_lastOdomTf n)) odomTf in
         ((v3_length (getOrigin T) >? m_dTh n) = true \/
          (fabs (yaw_of (getRPY (getBasis T))) >? m_aTh n) = true \/
          (toSec (time_sub (now w) (m_lastPeriodicUpdate n)) >? m_tTh n)
            = true))
    /\ (r = true ->
        m_doUpdate n' = true /\ m_lastPeriodicUpdate n' = now w)
    /\ (r = false ->
        n' = n /\ m_doUpdate n' = m_doUpdate n).
Proof.
  intros n w. cbv zeta. unfold checkUpdateThresholds.
  destruct (m_init n) eqn:Hinit; cbn [negb].
  2:{ cbn. split; [split|split]; try discriminate.
      - intros [H _]; discriminate.
      - intros _; split; reflexivity. }
  destruct (lookupTransform w (m_odomFrameId n) (m_baseFrameId n))
    as [odomTf|] eqn:Hlook.
  2:{ cbn. split; [split|split]; try discriminate.
      - intros [_ [o [H _]]]; discriminate.
      - intros _; split; reflexivity. }
  set (T := tf_mul (tf_inverse (m_lastOdomTf n)) odomTf).
  destruct (v3_length (getOrigin T) >? m_dTh n) eqn:Hd.
  { cbn. split; [|split]; try discriminate.
    - split; [intros _|reflexivity]. split; [reflexivity|].
      exists odomTf. split; [reflexivity|]. left. exact Hd.
    - intros _. split; reflexivity. }
  destruct (getRPY (getBasis T)) as [[roll pitch] yaw] eqn:Hrpy.
  destruct (fabs yaw >? m_aTh n) eqn:Ha.
  { cbn. split; [|split]; try discriminate.
    - split; [intros _|reflexivity]. split; [reflexivity|].
      exists odomTf. split; [reflexivity|]. right; left.
      fold T. rewrite Hrpy. exact Ha.
    - intros _. split; reflexivity. }
  destruct (toSec (time_sub (now w) (m_lastPeriodicUpdate n)) >? m_tTh n)
    eqn:Ht.
  { cbn. split; [|split]; try discriminate.
    - split; [intros _|reflexivity]. split; [reflexivity|].
      exists odomTf. split; [reflexivity|]. right; right.
      first [exact Ht | reflexivity].
    - intros _. split; reflexivity. }
  cbn. split; [split|split]; try discriminate.
  - intros [_ [o [Ho H]]]. injection Ho as <-. fold T in H.
    rewrite Hrpy in H. cbn in H. rewrite ?Hd, ?Ha, ?Ht in H.
    destruct H as [H|[H|H]]; discriminate.
  - intros _; split; reflexivity.
Qed.

(* ------------------------------------------------------------------ *)
(** *** The candidate points *)

Lemma keep_in_band_filter (p : PointXYZ float) (out : list (PointXYZ float)) :
  keep_in_band out p = out ++ (if in_band p then [p] else []).
Proof.
  unfold keep_in_band, in_band, squared_range.
  destruct (_ && _); [reflexivity | now rewrite app_nil_r].
Qed.

Lemma band_loop (l out : list (PointXYZ float)) :
  fold_left keep_in_band l out = out ++ filter in_band l.
Proof.
  revert out. induction l as [|p l IH]; intros out; cbn [fold_left filter].
  - now rewrite app_nil_r.
  - rewrite IH, keep_in_band_filter, <- app_assoc.
    destruct (in_band p); reflexivity.
Qed.

Lemma PointCloud2_to_PointXYZ_filter (input : PointCloud2 float)
  (out : list (PointXYZ float)) :
  PointCloud2_to_PointXYZ input out
  = (true, filter in_band (cloud_points input)).
Proof.
  unfold PointCloud2_to_PointXYZ. now rewrite band_loop.
Qed.

(* ------------------------------------------------------------------ *)
(** *** The tilt compensation *)

Lemma assign_middle {A : Type} (l1 l2 : list A) (a v : A) :
  assign (List.length l1) v (l1 ++ a :: l2) = l1 ++ v :: l2.
Proof.
  induction l1 as [|b l1 IH]; cbn; [reflexivity | now rewrite IH].
Qed.

(** The loop invariant: with the indices below [length done] treated,
    the vector holds the images of [done] followed by what [resize] left,
    and the rest of the loop fills in the images of [rest]. *)
Lemma tilt_loop (f : PointXYZ float -> PointXYZ float)
  (zero : PointXYZ float) :
  forall (rest done : list (PointXYZ float))
         (filled blank : list (PointXYZ float)),
    List.length filled = List.length done ->
    List.length blank = List.length rest ->
    fold_left
      (fun points i => assign i (f (nth i (done ++ rest) zero)) points)
      (seq (List.length done) (List.length rest)) (filled ++ blank)
    = filled ++ map f rest.
Proof.
  induction rest as [|a rest IH]; intros done filled blank Hf Hb.
  - destruct blank; [reflexivity | discriminate].
  - destruct blank as [|z blank]; [discriminate|].
    cbn [List.length seq fold_left map].
    rewrite nth_middle, <- Hf, assign_middle.
    replace (S (List.length filled))
      with (List.length (done ++ [a])) by (rewrite length_app, Hf; cbn; lia).
    replace (done ++ a :: rest) with ((done ++ [a]) ++ rest)
      by (now rewrite <- app_assoc).
    replace (filled ++ f a :: blank) with ((filled ++ [f a]) ++ blank)
      by (now rewrite <- app_assoc).
    rewrite IH.
    + now rewrite <- app_assoc.
    + rewrite !length_app, Hf. reflexivity.
    + now injection Hb.
Qed.

Lemma tiltCompensate_map (roll pitch : double)
  (downCloud : list (PointXYZ float)) :
  tiltCompensate roll pitch downCloud
  = map (rotate (tilt_matrix roll pitch)) downCloud.
Proof.
  set (zero := mkPointXYZ (of_int 0) (of_int 0) (of_int 0) : PointXYZ float).
  exact (tilt_loop (rotate (tilt_matrix roll pitch)) zero downCloud [] []
           (repeat zero (List.length downCloud)) eq_refl
           (repeat_length zero (List.length downCloud))).
Qed.

(* ------------------------------------------------------------------ *)
(** *** One registration cycle *)

Lemma launchSolver_strategy (n : DLLNode) (points : list (PointXYZ float))
  (tx ty tz : double) :
  launchSolver n points tx ty tz
  = (match strategy_of (m_alignMethod n) with
     | Some s => backend_of s (m_backend n) points tx ty tz (m_yaw n)
     | None => (m_backend n, (tx, ty, tz, m_yaw n))
     end,
     align_events n points (tx, ty, tz, m_yaw n)).
Proof.
  unfold launchSolver, align_events, strategy_of.
  destruct (m_alignMethod n =? 1)%Z; [reflexivity|].
  destruct (m_alignMethod n =? 2)%Z; [reflexivity|].
  destruct (m_alignMethod n =? 3)%Z; reflexivity.
Qed.

(** What a cycle that runs leaves behind, field by field. *)
Lemma pointcloudCallback_run (n : DLLNode) (w : World)
  (cloud : PointCloud2 float) (odomTf pclTf : Transform) :
  registration_runs n w cloud odomTf pclTf ->
  let points := solver_points n odomTf pclTf cloud in
  let guess := prior_guess n odomTf in
  let refined := refined_pose n points guess in
  let n' := fst (pointcloudCallback n w cloud) in
  snd (pointcloudCallback n w cloud) = align_events n points guess /\
  m_roll n' = cycle_roll n odomTf /\
  m_pitch n' = cycle_pitch n odomTf /\
  m_yaw n' = pose_yaw refined /\
  m_lastGlobalTf n'
  = tf_mul (pose_transform (cycle_roll n odomTf) (cycle_pitch n odomTf)
              refined)
           (tf_inverse odomTf) /\
  m_lastOdomTf n' = odomTf /\
  m_doUpdate n' = false /\
  m_init n' = true /\
  params n' = params n /\
  m_backend n' = refined_backend n points guess.
Proof.
  intros (Hinit & Hdo & Hodom & Hpcl). cbv zeta.
  unfold pointcloudCallback. rewrite Hinit, Hdo, Hodom. cbn [negb].
  assert (Hcache :
    (if negb (m_tfCache n)
     then match lookupTransform w (m_baseFrameId n) (cloud_frame_id cloud) with
          | Some t => Some (set_m_tfCache true (set_m_pclTf t n))
          | None => None
          end
     else Some n)
    = Some (if m_tfCache n then n
            else set_m_tfCache true (set_m_pclTf pclTf n))).
  { destruct (m_tfCache n); cbn [negb]; [reflexivity | now rewrite Hpcl]. }
  rewrite Hcache. clear Hcache.
  set (n1 := if m_tfCache n then n
             else set_m_tfCache true (set_m_pclTf pclTf n)).
  assert (Hn1 : params n1 = params n /\ m_pclTf n1 = pclTf /\
                m_roll n1 = m_roll n /\ m_pitch n1 = m_pitch n /\
                m_backend n1 = m_backend n /\ m_init n1 = true).
  { unfold n1. destruct (m_tfCache n); repeat split; auto. }
  destruct Hn1 as (Hp & Hpc & Hr & Hpi & Hb & Hi).
  unfold solver_points, candidate_points, prior_guess, cycle_roll,
    cycle_pitch, prior_rpy, prior_pose, refined_pose, refined_backend,
    pose_transform.
  rewrite Hp, Hpc.
  destruct (getRPY (getBasis (tf_mul (m_lastGlobalTf n) odomTf)))
    as [[r p] y].
  rewrite launchSolver_strategy.
  unfold align_events, roll_of, pitch_of, yaw_of.
  destruct (m_use_imu n) eqn:Himu; cbn - [tiltCompensate PointCloud2_to_PointXYZ];
    rewrite ?Hp, ?Hr, ?Hpi, ?Hb;
    destruct (strategy_of (m_alignMethod n)) as [s|];
    try destruct (backend_of s _ _ _ _ _ _) as [b [[[tx ty] tz] yaw]];
    cbn; rewrite ?Hp, ?Hr, ?Hpi, ?Hi; repeat split;
    first [reflexivity | assumption].
Qed.

(** C2. In every registration cycle the guess handed to the alignment
    backend is read off [mapTf = m_lastGlobalTf * odomTf]: [tx], [ty],
    [tz] are its origin and [yaw] the yaw of its basis; without an IMU the
    roll and pitch of the cycle - those the points are tilted by and the
    node keeps - are the roll and pitch of the same basis. *)
Theorem initial_guess_from_prior_pose :
  forall (n : DLLNode) (w : World) (cloud : PointCloud2 float)
         (odomTf pclTf : Transform),
    registration_runs n w cloud odomTf pclTf ->
    let mapTf := tf_mul (m_lastGlobalTf n) odomTf in
    let rpy := getRPY (getBasis mapTf) in
    let n' := fst (pointcloudCallback n w cloud) in
    exists points,
      snd (pointcloudCallback n w cloud)
      = match strategy_of (m_alignMethod n) with
        | Some s => [Align s points (getX (getOrigin mapTf))
                       (getY (getOrigin mapTf)) (getZ (getOrigin mapTf))
                       (yaw_of rpy)]
        | None => []
        end /\
      (m_use_imu n = false ->
       points = tiltCompensate (roll_of rpy) (pitch_of rpy)
                  (candidate_points n pclTf cloud) /\
       m_roll n' = roll_of rpy /\ m_pitch n' = pitch_of rpy).
Proof.
  intros n w cloud odomTf pclTf Hrun. cbv zeta.
  destruct (pointcloudCallback_run Hrun)
    as (Hev & Hroll & Hpitch & _).
  exists (solver_points n odomTf pclTf cloud). split.
  - exact Hev.
  - intros Himu. rewrite Hroll, Hpitch.
    unfold solver_points, cycle_roll, cycle_pitch. rewrite Himu.
    repeat split; reflexivity.
Qed.


(** C4. Whatever the backends do, a cycle hands them the points and the
    four parameters [tx], [ty], [tz], [yaw] only.  The roll and pitch the
    node holds at the call are the ones the points were tilted by; the
    node holds them unchanged after the call and recomposes the global
    transform with them. *)
Theorem roll_pitch_fixed_across_solve :
  forall (n : DLLNode) (w : World) (cloud : PointCloud2 float)
         (odomTf pclTf : Transform),
    registration_runs n w cloud odomTf pclTf ->
    let roll := cycle_roll n odomTf in
    let pitch := cycle_pitch n odomTf in
    let points := tiltCompensate roll pitch (candidate_points n pclTf cloud) in
    let refined := refined_pose n points (prior_guess n odomTf) in
    let n' := fst (pointcloudCallback n w cloud) in
    snd (pointcloudCallback n w cloud)
    = align_events n points (prior_guess n odomTf) /\
    m_roll n' = roll /\ m_pitch n' = pitch /\
    m_lastGlobalTf n'
    = tf_mul (mkTransform (setRPY roll pitch (pose_yaw refined))
                (mkVector3 (pose_tx refined) (pose_ty refined)
                   (pose_tz refined)))
             (tf_inverse odomTf) /\
    (m_use_imu n = true -> m_roll n' = m_roll n /\ m_pitch n' = m_pitch n).
Proof.
  intros n w cloud odomTf pclTf Hrun. cbv zeta.
  destruct (pointcloudCallback_run Hrun)
    as (Hev & Hroll & Hpitch & _ & Hglobal & _).
  split; [exact Hev|]. split; [exact Hroll|]. split; [exact Hpitch|].
  split; [exact Hglobal|].
  intros Himu. rewrite Hroll, Hpitch. unfold cycle_roll, cycle_pitch.
  rewrite Himu. split; reflexivity.
Qed.

(** C7, as the code has it.  A cycle calls at most one backend: the
    direct solver for [align_method = 1], NDT for 2, ICP for 3, each on
    the same points and the same four parameters, and the node keeps the
    state and the pose that backend returns; for every other value no
    backend is called and the cycle completes with the unrefined guess.
    Completing with a pose is a statement about the node the callback
    returns: its yaw is the yaw of that pose, its global transform is the
    rigid transform of that pose times the inverse of the odometry
    transform, the odometry transform is recorded and the pending update
    is cleared. *)
Theorem align_method_dispatch :
  forall (n : DLLNode) (w : World) (cloud : PointCloud2 float)
         (odomTf pclTf : Transform),
    registration_runs n w cloud odomTf pclTf ->
    let points := solver_points n odomTf pclTf cloud in
    let guess := prior_guess n odomTf in
    let tx := pose_tx guess in
    let ty := pose_ty guess in
    let tz := pose_tz guess in
    let yaw := pose_yaw guess in
    let n' := fst (pointcloudCallback n w cloud) in
    let ev := snd (pointcloudCallback n w cloud) in
    let refined := refined_pose n points guess in
    let completes_with := fun p : Pose4 double =>
      m_yaw n' = pose_yaw p /\
      m_lastGlobalTf n'
      = tf_mul
          (mkTransform (setRPY (m_roll n') (m_pitch n') (pose_yaw p))
             (mkVector3 (pose_tx p) (pose_ty p) (pose_tz p)))
          (tf_inverse odomTf) /\
      m_lastOdomTf n' = odomTf /\ m_doUpdate n' = false /\
      m_init n' = true in
    (m_alignMethod n = 1%Z ->
     ev = [Align DLL points tx ty tz yaw] /\
     (m_backend n', refined) = solve (m_backend n) points tx ty tz yaw /\
     completes_with (snd (solve (m_backend n) points tx ty tz yaw))) /\
    (m_alignMethod n = 2%Z ->
     ev = [Align NDT points tx ty tz yaw] /\
     (m_backend n', refined) = alignNDT (m_backend n) points tx ty tz yaw /\
     completes_with (snd (alignNDT (m_backend n) points tx ty tz yaw))) /\
    (m_alignMethod n = 3%Z ->
     ev = [Align ICP points tx ty tz yaw] /\
     (m_backend n', refined) = alignICP (m_backend n) points tx ty tz yaw /\
     completes_with (snd (alignICP (m_backend n) points tx ty tz yaw))) /\
    (m_alignMethod n <> 1%Z -> m_alignMethod n <> 2%Z ->
     m_alignMethod n <> 3%Z ->
     ev = [] /\ m_backend n' = m_backend n /\ refined = guess /\
     completes_with guess).
Proof.
  intros n w cloud odomTf pclTf Hrun. cbv zeta.
  destruct (pointcloudCallback_run Hrun)
    as (Hev & Hroll & Hpitch & Hyaw & Hglobal & Hodom & Hdo & Hinit & _ & Hb).
  rewrite Hev, Hb, Hyaw, Hglobal, Hodom, Hdo, Hinit, Hroll, Hpitch.
  unfold align_events, refined_backend, refined_pose, strategy_of,
    pose_transform.
  destruct (prior_guess n odomTf) as [[[tx ty] tz] yaw].
  unfold pose_tx, pose_ty, pose_tz, pose_yaw. cbn [fst snd].
  split; [|split; [|split]].
  1-3: intros ->; cbn; split;
    [reflexivity
    | split; [symmetry; apply surjective_pairing | repeat split]].
  intros H1 H2 H3. apply Z.eqb_neq in H1, H2, H3.
  rewrite H1, H2, H3. repeat split; reflexivity.
Qed.

(** C9. An initial pose whose frame is not the global frame is ignored:
    the callback logs a warning and returns the node as it was. *)
Theorem initialPoseReceived_other_frame :
  forall (n : DLLNode) (w : World) (msg : PoseWithCovarianceStamped double),
    pose_frame_id msg <> m_globalFrameId n ->
    initialPoseReceived n w msg = (n, [RosWarn]).
Proof.
  intros n w msg Hframe. unfold initialPoseReceived.
  apply String.eqb_neq in Hframe. now rewrite Hframe.
Qed.

(* ------------------------------------------------------------------ *)
(** *** The IMU *)

Lemma imuCallback_rpy (n : DLLNode) (msg : Imu double) :
  stored_rpy (imuCallback n msg)
  = if has_nan (decodeRPY msg) then stored_rpy n else decodeRPY msg.
Proof.
  unfold imuCallback, decodeRPY, has_nan, stored_rpy.
  destruct (getRPY _) as [[r p] y]. cbn.
  destruct (isnan r || isnan p || isnan y); reflexivity.
Qed.

(** The IMU callback writes the three angles and nothing else. *)
Lemma imuCallback_frame (n : DLLNode) (msg : Imu double) :
  imuCallback n msg
  = set_m_yaw (yaw_of (stored_rpy (imuCallback n msg)))
      (set_m_pitch (pitch_of (stored_rpy (imuCallback n msg)))
         (set_m_roll (roll_of (stored_rpy (imuCallback n msg))) n)).
Proof.
  unfold imuCallback, stored_rpy.
  destruct (getRPY _) as [[r p] y]. cbn.
  destruct (isnan r || isnan p || isnan y); reflexivity.
Qed.

(** C10. The IMU callback keeps the stored roll, pitch and yaw free of
    NaN: when one of the decoded angles is a NaN the three stored values
    are the ones from before the callback, otherwise they are the three
    decoded ones; so stored values without a NaN stay without one. *)
Theorem imuCallback_never_stores_nan :
  forall (n : DLLNode) (msg : Imu double),
    stored_rpy (imuCallback n msg)
    = (if has_nan (decodeRPY msg) then stored_rpy n else decodeRPY msg) /\
    (has_nan (stored_rpy n) = false ->
     has_nan (stored_rpy (imuCallback n msg)) = false).
Proof.
  intros n msg. split; [apply imuCallback_rpy|].
  intros Hn. rewrite imuCallback_rpy.
  destruct (has_nan (decodeRPY msg)) eqn:Hd; assumption.
Qed.

(** No callback writes a parameter. *)
Lemma checkUpdateThresholds_params (n : DLLNode) (w : World) :
  params (snd (fst (checkUpdateThresholds n w))) = params n /\
  m_roll (snd (fst (checkUpdateThresholds n w))) = m_roll n /\
  m_pitch (snd (fst (checkUpdateThresholds n w))) = m_pitch n.
Proof.
  unfold checkUpdateThresholds.
  destruct (m_init n); cbn [negb]; [|now cbn].
  destruct (lookupTransform _ _ _); [|now cbn].
  destruct (_ >? _); [now cbn|].
  destruct (getRPY _) as [[r p] y].
  destruct (_ >? _); [now cbn|].
  destruct (_ >? _); now cbn.
Qed.

Lemma setInitialPose_params (n : DLLNode) (w : World) (pose : Transform) :
  params (fst (setInitialPose n w pose)) = params n /\
  (m_use_imu n = true ->
   m_roll (fst (setInitialPose n w pose)) = m_roll n /\
   m_pitch (fst (setInitialPose n w pose)) = m_pitch n).
Proof.
  unfold setInitialPose.
  destruct (lookupTransform _ _ _) as [odomTf|]; [|now cbn].
  cbn [m_lastOdomTf set_m_lastOdomTf].
  destruct (getRPY (getBasis odomTf)) as [[r p] y].
  cbn [params set_m_lastOdomTf].
  destruct (m_use_imu n); cbn; split; try reflexivity; intros H;
    first [discriminate | split; reflexivity].
Qed.

Lemma pointcloudCallback_params (n : DLLNode) (w : World)
  (cloud : PointCloud2 float) :
  params (fst (pointcloudCallback n w cloud)) = params n /\
  (m_use_imu n = true ->
   m_roll (fst (pointcloudCallback n w cloud)) = m_roll n /\
   m_pitch (fst (pointcloudCallback n w cloud)) = m_pitch n).
Proof.
  unfold pointcloudCallback.
  destruct (m_init n); cbn [negb]; [|now cbn].
  destruct (m_doUpdate n); cbn [negb]; [|now cbn].
  destruct (lookupTransform w (m_odomFrameId n) (m_baseFrameId n))
    as [odomTf|]; [|now cbn].
  set (cached := if negb (m_tfCache n) then _ else _).
  assert (Hc : cached = None \/
               exists n1, cached = Some n1 /\ params n1 = params n /\
                          m_roll n1 = m_roll n /\ m_pitch n1 = m_pitch n).
  { unfold cached. destruct (m_tfCache n); cbn [negb].
    - right. exists n. now repeat split.
    - destruct (lookupTransform _ _ _) as [t|]; [right|now left].
      eexists. split; [reflexivity|]. now repeat split. }
  destruct Hc as [-> | (n1 & -> & Hp & Hr & Hpi)]; [now cbn|].
  destruct (getRPY _) as [[r p] y]. rewrite Hp.
  destruct (m_use_imu n) eqn:Himu;
    destruct (launchSolver _ _ _ _ _) as [[b [[[tx ty] tz] yaw]] ev];
    cbn; (split; [exact Hp|]); intros H;
    first [discriminate | now split].
Qed.

Lemma deliver_params (n : DLLNode) (i : Input) :
  params (deliver n i) = params n.
Proof.
  destruct i as [msg|w|w msg|w cloud]; cbn [deliver].
  - destruct (m_use_imu n); [|reflexivity].
    rewrite imuCallback_frame. reflexivity.
  - unfold checkUpdateThresholdsTimer.
    pose proof (checkUpdateThresholds_params n w) as (H & _).
    destruct (checkUpdateThresholds n w) as [[r n'] ev]. exact H.
  - unfold initialPoseReceived. destruct (negb _); [reflexivity|].
    apply setInitialPose_params.
  - apply pointcloudCallback_params.
Qed.

(** With the IMU in use only an IMU message that decodes without a NaN
    changes the stored roll and pitch. *)
Lemma deliver_tilt (n : DLLNode) (i : Input) :
  m_use_imu n = true ->
  (m_roll (deliver n i), m_pitch (deliver n i))
  = match i with
    | InImu msg =>
        if has_nan (decodeRPY msg) then (m_roll n, m_pitch n)
        else (roll_of (decodeRPY msg), pitch_of (decodeRPY msg))
    | _ => (m_roll n, m_pitch n)
    end.
Proof.
  intros Himu. destruct i as [msg|w|w msg|w cloud]; cbn [deliver].
  - rewrite Himu. pose proof (imuCallback_rpy n msg) as H.
    unfold stored_rpy in H.
    destruct (has_nan (decodeRPY msg)).
    + now injection H as -> -> _.
    + rewrite <- H. reflexivity.
  - unfold checkUpdateThresholdsTimer.
    pose proof (checkUpdateThresholds_params n w) as (_ & Hr & Hp).
    destruct (checkUpdateThresholds n w) as [[r n'] ev].
    cbn in Hr, Hp |- *. now rewrite Hr, Hp.
  - unfold initialPoseReceived. destruct (negb _); [reflexivity|].
    destruct (setInitialPose_params n w (poseMsgToTF (pose_pose msg)))
      as (_ & H). destruct (H Himu) as [-> ->]. reflexivity.
  - destruct (pointcloudCallback_params n w cloud) as (_ & H).
    destruct (H Himu) as [-> ->]. reflexivity.
Qed.

Lemma last_valid_rpy_app (l1 l2 : list (Imu double)) :
  last_valid_rpy (l1 ++ l2)
  = match last_valid_rpy l2 with
    | Some d => Some d
    | None => last_valid_rpy l1
    end.
Proof.
  unfold last_valid_rpy. rewrite fold_left_app.
  generalize (fold_left
                (fun acc msg => if has_nan (decodeRPY msg) then acc
                                else Some (decodeRPY msg)) l1 None).
  induction l2 as [|msg l2 IH]; intros acc; cbn [fold_left].
  - reflexivity.
  - rewrite (IH (if has_nan (decodeRPY msg) then acc
                 else Some (decodeRPY msg))),
            (IH (if has_nan (decodeRPY msg) then None
                 else Some (decodeRPY msg))).
    destruct (fold_left _ l2 None); [reflexivity|].
    destruct (has_nan (decodeRPY msg)); reflexivity.
Qed.

Lemma run_params (history : list Input) (n : DLLNode) :
  params (run n history) = params n.
Proof.
  unfold run. revert n.
  induction history as [|i history IH]; intros n; cbn [fold_left].
  - reflexivity.
  - now rewrite IH, deliver_params.
Qed.

(** With the IMU in use the stored roll and pitch are, after any history
    of callbacks, those of the last IMU message that decoded without a
    NaN, and the initial ones if there is none. *)
Lemma run_tilt (history : list Input) (n : DLLNode) :
  m_use_imu n = true ->
  (m_roll (run n history), m_pitch (run n history))
  = match last_valid_rpy (imu_messages history) with
    | Some d => (roll_of d, pitch_of d)
    | None => (m_roll n, m_pitch n)
    end.
Proof.
  intros Himu. induction history as [|i history IH] using rev_ind.
  - reflexivity.
  - assert (Hlast : run n (history ++ [i]) = deliver (run n history) i)
      by (unfold run; now rewrite fold_left_app).
    rewrite Hlast. unfold imu_messages.
    rewrite flat_map_app, last_valid_rpy_app. fold (imu_messages history).
    rewrite deliver_tilt by (now rewrite run_params).
    destruct i as [msg|w|w msg|w cloud]; try exact IH.
    unfold last_valid_rpy at 1. cbn [flat_map app fold_left].
    destruct (has_nan (decodeRPY msg)); [exact IH | reflexivity].
Qed.

(** C8, as the code has it.  With the IMU in use, the roll and pitch of
    a cycle - those the points are tilted by and the node keeps for the
    global transform - are the stored ones: whatever callbacks ran before,
    those decoded from the last IMU message that decoded without a NaN
    (the initial values if there is none); the yaw of the guess is that of
    the prior pose.  Without the IMU, roll, pitch and yaw are all those of
    the prior pose. *)
Theorem cycle_orientation_sources :
  forall (n : DLLNode) (history : list Input) (w : World)
         (cloud : PointCloud2 float) (odomTf pclTf : Transform),
    let n1 := run n history in
    registration_runs n1 w cloud odomTf pclTf ->
    let prior := getRPY (getBasis (tf_mul (m_lastGlobalTf n1) odomTf)) in
    let stored :=
      match last_valid_rpy (imu_messages history) with
      | Some d => (roll_of d, pitch_of d)
      | None => (m_roll n, m_pitch n)
      end in
    let roll := if m_use_imu n then fst stored else roll_of prior in
    let pitch := if m_use_imu n then snd stored else pitch_of prior in
    let n2 := fst (pointcloudCallback n1 w cloud) in
    snd (pointcloudCallback n1 w cloud)
    = align_events n1
        (tiltCompensate roll pitch (candidate_points n1 pclTf cloud))
        (pose_tx (prior_guess n1 odomTf), pose_ty (prior_guess n1 odomTf),
         pose_tz (prior_guess n1 odomTf), yaw_of prior) /\
    m_roll n2 = roll /\ m_pitch n2 = pitch.
Proof.
  intros n history w cloud odomTf pclTf n1 Hrun. cbv zeta.
  destruct (pointcloudCallback_run Hrun) as (Hev & Hroll & Hpitch & _).
  assert (Hr : cycle_roll n1 odomTf
               = if m_use_imu n
                 then fst match last_valid_rpy (imu_messages history) with
                          | Some d => (roll_of d, pitch_of d)
                          | None => (m_roll n, m_pitch n)
                          end
                 else roll_of (prior_rpy n1 odomTf)).
  { unfold cycle_roll, n1. rewrite run_params.
    destruct (m_use_imu n) eqn:Himu; [|reflexivity].
    now rewrite <- (run_tilt history n Himu). }
  assert (Hp : cycle_pitch n1 odomTf
               = if m_use_imu n
                 then snd match last_valid_rpy (imu_messages history) with
                          | Some d => (roll_of d, pitch_of d)
                          | None => (m_roll n, m_pitch n)
                          end
                 else pitch_of (prior_rpy n1 odomTf)).
  { unfold cycle_pitch, n1. rewrite run_params.
    destruct (m_use_imu n) eqn:Himu; [|reflexivity].
    now rewrite <- (run_tilt history n Himu). }
  rewrite Hev, Hroll, Hpitch. unfold solver_points. rewrite Hr, Hp.
  split; [reflexivity | split; reflexivity].
Qed.

(* ------------------------------------------------------------------ *)
(** *** The tilt matrix in exact arithmetic *)

Section Exact.

Hypothesis Hexact : exact_arithmetic (T:=float).

Lemma float_ring_theory :
  ring_theory (of_int 0 : float) (of_int 1) fadd fmul
    (fun x y => x + - y) fneg (@eq float).
Proof. exact Hexact. Qed.

Add Ring float_ring : float_ring_theory.

Lemma tilt_matrix_Ry_Rx (roll pitch : double) :
  tilt_matrix roll pitch
  = mat_mul (Ry (to_float (fcos pitch)) (to_float (fsin pitch)))
            (Rx (to_float (fcos roll)) (to_float (fsin roll))).
Proof.
  unfold tilt_matrix, mat_mul, row_mat, dot, Ry, Rx, col0, col1, col2.
  cbn [row0 row1 row2 getX getY getZ].
  f_equal; f_equal; ring.
Qed.

End Exact.

(** C6. The points a cycle hands to the backend are the retained points,
    each rotated by the matrix with the rows [(cp, sp*sr, cr*sp)],
    [(0, cr, -sr)], [(-sp, cp*sr, cp*cr)] built from the roll and pitch of
    the cycle; the yaw does not enter.  In exact arithmetic this matrix
    is the product [Ry(pitch) * Rx(roll)]. *)
Theorem tilt_compensation_rotation :
  forall (n : DLLNode) (w : World) (cloud : PointCloud2 float)
         (odomTf pclTf : Transform),
    registration_runs n w cloud odomTf pclTf ->
    let roll := cycle_roll n odomTf in
    let pitch := cycle_pitch n odomTf in
    let cr := to_float (fcos roll) in
    let sr := to_float (fsin roll) in
    let cp := to_float (fcos pitch) in
    let sp := to_float (fsin pitch) in
    let R := mkMat3 (mkVector3 cp (sp * sr) (cr * sp))
                    (mkVector3 (of_int 0) cr (- sr))
                    (mkVector3 (- sp) (cp * sr) (cp * cr)) in
    snd (pointcloudCallback n w cloud)
    = align_events n (map (rotate R) (candidate_points n pclTf cloud))
        (prior_guess n odomTf) /\
    (exact_arithmetic (T:=float) -> R = mat_mul (Ry cp sp) (Rx cr sr)).
Proof.
  intros n w cloud odomTf pclTf Hrun. cbv zeta.
  destruct (pointcloudCallback_run Hrun) as (Hev & _).
  split.
  - rewrite Hev. unfold solver_points. now rewrite tiltCompensate_map.
  - intros Hexact.
    exact (tilt_matrix_Ry_Rx Hexact (cycle_roll n odomTf)
             (cycle_pitch n odomTf)).
Qed.


End NodeProperties.

(* ================================================================== *)
(** ** The reference model in exact arithmetic

    Over a scalar type with the laws of a commutative ring the reference
    transforms compose as rigid motions do. *)

Section ReferenceLaws.

Context {S : Type} {FS : Floating S} {LS : Libm S} {TS : TfScalar S}.

Hypothesis Hexact : exact_arithmetic (T:=S).

Local Open Scope fp_scope.

Lemma scalar_ring_theory :
  ring_theory (of_int 0 : S) (of_int 1) fadd fmul
    (fun x y => x + - y) fneg (@eq S).
Proof. exact Hexact. Qed.

Add Ring scalar_ring : scalar_ring_theory.

Ltac components :=
  repeat match goal with
         | a : Rigid _ |- _ => destruct a
         | m : Mat3 _ |- _ => destruct m
         | v : Vector3 _ |- _ => destruct v
         end;
  unfold ref_mul, ref_inverse, ref_identity, mat_mul, row_mat, mat_vec,
    transpose, mat_id, v3_add, v3_neg, dot, col0, col1, col2 in *;
  cbn [basis origin row0 row1 row2 getX getY getZ] in *.

Lemma ref_mul_assoc (a b c : Rigid S) :
  ref_mul (ref_mul a b) c = ref_mul a (ref_mul b c).
Proof.
  components. f_equal; [f_equal|]; f_equal; ring.
Qed.

Lemma ref_mul_identity_r (a : Rigid S) : ref_mul a ref_identity = a.
Proof.
  components. f_equal; [f_equal|]; f_equal; ring.
Qed.

(** A transform whose basis is orthonormal is undone by its inverse. *)
Lemma ref_inverse_l (a : Rigid S) :
  mat_mul (transpose (basis a)) (basis a) = mat_id ->
  ref_mul (ref_inverse a) a = ref_identity.
Proof.
  intros Horth. unfold ref_mul at 1. unfold ref_identity.
  f_equal; [exact Horth|].
  components. f_equal; ring.
Qed.

Lemma quarter_turn_orthonormal :
  mat_mul (transpose (quarter_turn (S:=S))) quarter_turn = mat_id.
Proof.
  unfold quarter_turn. components. f_equal; f_equal; ring.
Qed.

Lemma scene_composition_laws :
  composition_laws (TF:=RefTf) (scene_odom (S:=S)).
Proof.
  split; [|split].
  - exact ref_mul_assoc.
  - exact ref_mul_identity_r.
  - apply ref_inverse_l. exact quarter_turn_orthonormal.
Qed.

End ReferenceLaws.

(* ================================================================== *)
(** ** The properties on the scene, over the reals *)

Section RealScene.

#[local] Existing Instances RefTf RefRos RefConv RefBackend.

Lemma R_exact : exact_arithmetic (T:=R).
Proof. exact RTheory. Qed.

Lemma scene_runs (use_imu : bool) (align_method : Z) :
  registration_runs (scene_node (S:=R) use_imu align_method)
    scene_world scene_cloud scene_odom scene_lidar.
Proof. repeat split. Qed.

(** The guess of the scene's cycle is the prior pose. *)
Lemma initial_guess_from_prior_pose_scene :
  let n := scene_node (S:=R) false 1 in
  let mapTf := ref_mul ref_identity scene_odom in
  exists points,
    snd (pointcloudCallback n scene_world scene_cloud)
    = [Align DLL points (getX (origin mapTf)) (getY (origin mapTf))
         (getZ (origin mapTf)) (yaw_of (ref_getRPY (basis mapTf)))] /\
    (false = false ->
     points = tiltCompensate (roll_of (ref_getRPY (basis mapTf)))
                (pitch_of (ref_getRPY (basis mapTf)))
                (candidate_points n scene_lidar scene_cloud) /\
     m_roll (fst (pointcloudCallback n scene_world scene_cloud))
     = roll_of (ref_getRPY (basis mapTf)) /\
     m_pitch (fst (pointcloudCallback n scene_world scene_cloud))
     = pitch_of (ref_getRPY (basis mapTf))).
Proof.
  exact (initial_guess_from_prior_pose (scene_runs false 1)).
Defined.


(** With the IMU in use the scene's cycle leaves roll and pitch alone. *)
Lemma roll_pitch_fixed_across_solve_scene :
  let n := scene_node (S:=R) true 1 in
  let roll := cycle_roll n scene_odom in
  let pitch := cycle_pitch n scene_odom in
  let points :=
    tiltCompensate roll pitch (candidate_points n scene_lidar scene_cloud) in
  let refined := refined_pose n points (prior_guess n scene_odom) in
  let n' := fst (pointcloudCallback n scene_world scene_cloud) in
  snd (pointcloudCallback n scene_world scene_cloud)
  = align_events n points (prior_guess n scene_odom) /\
  m_roll n' = roll /\ m_pitch n' = pitch /\
  m_lastGlobalTf n'
  = ref_mul (ref_mkTransform (ref_setRPY roll pitch (pose_yaw refined))
               (mkVector3 (pose_tx refined) (pose_ty refined)
                  (pose_tz refined)))
            (ref_inverse scene_odom) /\
  (true = true -> m_roll n' = 0%R /\ m_pitch n' = 0%R).
Proof.
  exact (roll_pitch_fixed_across_solve (scene_runs true 1)).
Defined.

(** The scene's cycle tilts its candidate points by [Ry * Rx]. *)
Lemma tilt_compensation_rotation_scene :
  let n := scene_node (S:=R) false 1 in
  let roll := cycle_roll n scene_odom in
  let pitch := cycle_pitch n scene_odom in
  let Rot :=
    mkMat3
      (mkVector3 (cos pitch) (sin pitch * sin roll)%R
         (cos roll * sin pitch)%R)
      (mkVector3 0%R (cos roll) (- sin roll)%R)
      (mkVector3 (- sin pitch)%R (cos pitch * sin roll)%R
         (cos pitch * cos roll)%R) in
  snd (pointcloudCallback n scene_world scene_cloud)
  = align_events n
      (map (rotate Rot) (candidate_points n scene_lidar scene_cloud))
      (prior_guess n scene_odom) /\
  Rot = mat_mul (Ry (cos pitch) (sin pitch)) (Rx (cos roll) (sin roll)).
Proof.
  cbv zeta.
  destruct (tilt_compensation_rotation (scene_runs false 1)) as [Hev Hrot].
  exact (conj Hev (Hrot R_exact)).
Defined.

(** With [align_method = 2] the scene's cycle calls NDT. *)
Lemma align_method_dispatch_scene :
  let n := scene_node (S:=R) false 2 in
  let points := solver_points n scene_odom scene_lidar scene_cloud in
  let guess := prior_guess n scene_odom in
  let tx := pose_tx guess in
  let ty := pose_ty guess in
  let tz := pose_tz guess in
  let yaw := pose_yaw guess in
  let n' := fst (pointcloudCallback n scene_world scene_cloud) in
  let ev := snd (pointcloudCallback n scene_world scene_cloud) in
  let refined := refined_pose n points guess in
  let completes_with := fun p : Pose4 R =>
    m_yaw n' = pose_yaw p /\
    m_lastGlobalTf n'
    = tf_mul
        (mkTransform (setRPY (m_roll n') (m_pitch n') (pose_yaw p))
           (mkVector3 (pose_tx p) (pose_ty p) (pose_tz p)))
        (@tf_inverse R RefTf scene_odom) /\
    m_lastOdomTf n' = scene_odom /\ m_doUpdate n' = false /\
    m_init n' = true in
  (m_alignMethod n = 1%Z ->
   ev = [Align DLL points tx ty tz yaw] /\
   (m_backend n', refined) = solve (m_backend n) points tx ty tz yaw /\
   completes_with (snd (solve (m_backend n) points tx ty tz yaw))) /\
  (m_alignMethod n = 2%Z ->
   ev = [Align NDT points tx ty tz yaw] /\
   (m_backend n', refined) = alignNDT (m_backend n) points tx ty tz yaw /\
   completes_with (snd (alignNDT (m_backend n) points tx ty tz yaw))) /\
  (m_alignMethod n = 3%Z ->
   ev = [Align ICP points tx ty tz yaw] /\
   (m_backend n', refined) = alignICP (m_backend n) points tx ty tz yaw /\
   completes_with (snd (alignICP (m_backend n) points tx ty tz yaw))) /\
  (m_alignMethod n <> 1%Z -> m_alignMethod n <> 2%Z ->
   m_alignMethod n <> 3%Z ->
   ev = [] /\ m_backend n' = m_backend n /\ refined = guess /\
   completes_with guess).
Proof.
  exact (align_method_dispatch (scene_runs false 2)).
Defined.

(** C7, the claim as written fails: with [align_method = 0] the scene's
    cycle runs to its end - the pending flag is cleared and the odometry
    transform is recorded - and calls no backend at all. *)
Lemma align_method_0_calls_no_strategy :
  let n := scene_node (S:=R) false 0 in
  let n' := fst (pointcloudCallback n scene_world scene_cloud) in
  registration_runs n scene_world scene_cloud scene_odom scene_lidar /\
  m_doUpdate n' = false /\ m_lastOdomTf n' = scene_odom /\
  snd (pointcloudCallback n scene_world scene_cloud) = [].
Proof.
  cbv zeta.
  destruct (pointcloudCallback_run (scene_runs false 0))
    as (Hev & _ & _ & _ & _ & Hodom & Hdo & _).
  split; [apply scene_runs|]. split; [exact Hdo|]. split; [exact Hodom|].
  exact Hev.
Qed.

(** An initial pose in the odometry frame leaves the scene's node as it
    is. *)
Lemma initialPoseReceived_other_frame_scene :
  initialPoseReceived (scene_node (S:=R) false 1) scene_world
    scene_pose_in_odom
  = (scene_node false 1, [RosWarn]).
Proof.
  exact (initialPoseReceived_other_frame (scene_node (S:=R) false 1)
           scene_world scene_pose_in_odom
           ltac:(discriminate)).
Defined.

End RealScene.

(* ================================================================== *)
(** ** The IMU on the scene, over the reals with a NaN *)

Section NanScene.

#[local] Existing Instances RefTf RefRos RefConv RefBackend.

Lemma imu_with_nan_decodes_to_nan :
  decodeRPY imu_with_nan = (None, None, None).
Proof. reflexivity. Qed.

(** A history of the scene: an initial pose in the wrong frame, then an
    IMU message with a NaN. *)
Lemma scene_runs_after_nan :
  registration_runs
    (run (scene_node (S:=Rnan) true 1)
       [InPose scene_world scene_pose_in_odom; InImu imu_with_nan])
    scene_world scene_cloud scene_odom scene_lidar.
Proof. repeat split. Qed.

(** After the history the scene's cycle works with the stored roll and
    pitch, and takes the yaw of its guess from the prior pose. *)
Lemma cycle_orientation_sources_scene :
  let n := scene_node (S:=Rnan) true 1 in
  let history := [InPose scene_world scene_pose_in_odom; InImu imu_with_nan] in
  let n1 := run n history in
  let prior :=
    getRPY (getBasis (tf_mul (m_lastGlobalTf n1) scene_odom)) in
  let stored :=
    match last_valid_rpy (imu_messages history) with
    | Some d => (roll_of d, pitch_of d)
    | None => (m_roll n, m_pitch n)
    end in
  let roll := if m_use_imu n then fst stored else roll_of prior in
  let pitch := if m_use_imu n then snd stored else pitch_of prior in
  let n2 := fst (pointcloudCallback n1 scene_world scene_cloud) in
  snd (pointcloudCallback n1 scene_world scene_cloud)
  = align_events n1
      (tiltCompensate roll pitch
         (candidate_points n1 scene_lidar scene_cloud))
      (pose_tx (prior_guess n1 scene_odom),
       pose_ty (prior_guess n1 scene_odom),
       pose_tz (prior_guess n1 scene_odom), yaw_of prior) /\
  m_roll n2 = roll /\ m_pitch n2 = pitch.
Proof.
  exact (cycle_orientation_sources (scene_node (S:=Rnan) true 1)
           [InPose scene_world scene_pose_in_odom; InImu imu_with_nan]
           scene_runs_after_nan).
Defined.

Lemma scene_runs_after_imu :
  registration_runs (imuCallback (scene_node (S:=Rnan) true 1) imu_with_nan)
    scene_world scene_cloud scene_odom scene_lidar.
Proof. repeat split. Qed.

(** C8, the claim as written fails: the most recent IMU message of the
    scene decodes to NaN angles, and the cycle that follows it, with the
    IMU in use, works with roll and pitch zero - the stored values - and
    not with the angles of that message. *)
Lemma nan_imu_message_is_not_used :
  let n := scene_node (S:=Rnan) true 1 in
  let n1 := imuCallback n imu_with_nan in
  let n2 := fst (pointcloudCallback n1 scene_world scene_cloud) in
  registration_runs n1 scene_world scene_cloud scene_odom scene_lidar /\
  m_use_imu n1 = true /\
  roll_of (decodeRPY imu_with_nan) = None /\
  pitch_of (decodeRPY imu_with_nan) = None /\
  m_roll n2 = Some 0%R /\ m_pitch n2 = Some 0%R /\
  m_roll n2 <> roll_of (decodeRPY imu_with_nan) /\
  m_pitch n2 <> pitch_of (decodeRPY imu_with_nan).
Proof.
  cbv zeta.
  destruct (pointcloudCallback_run scene_runs_after_imu)
    as (_ & Hroll & Hpitch & _).
  split; [exact scene_runs_after_imu|]. split; [reflexivity|].
  rewrite imu_with_nan_decodes_to_nan. split; [reflexivity|].
  split; [reflexivity|].
  rewrite Hroll, Hpitch.
  split; [reflexivity|]. split; [reflexivity|].
  split; discriminate.
Qed.

End NanScene.

(* ================================================================== *)
(** ** The binary64 scene *)

Section DoubleSceneProperties.

#[local] Existing Instances binary64 b64_Libm b64_TfScalar.
#[local] Existing Instances RefTf RefRos RefConv SettleBackend.


End DoubleSceneProperties.

(* ================================================================== *)
(** ** The band of the candidate points *)

(** C5. The filter keeps exactly the points whose squared range, as
    computed, is greater than 1 and less than 10000, in the order of the
    input; in binary32 a point whose squared range is 1 or 10000 is
    dropped. *)
Theorem PointCloud2_to_PointXYZ_band :
  (forall (float : Type) (FF : Floating float) (input : PointCloud2 float)
          (out : list (PointXYZ float)),
     snd (PointCloud2_to_PointXYZ input out)
     = filter (fun p => (squared_range p >? of_int 1)%fp
                        && (squared_range p <? of_int 10000)%fp)
         (cloud_points input) /\
     forall p,
       In p (snd (PointCloud2_to_PointXYZ input out)) <->
       In p (cloud_points input) /\
       (squared_range p >? of_int 1)%fp = true /\
       (squared_range p <? of_int 10000)%fp = true) /\
  (forall (input : PointCloud2 spec_float) (out : list (PointXYZ spec_float))
          (p : PointXYZ spec_float),
     @squared_range _ binary32 p = @of_int _ binary32 1 \/
     @squared_range _ binary32 p = @of_int _ binary32 10000 ->
     ~ In p (snd (@PointCloud2_to_PointXYZ _ binary32 input out))).
Proof.
  split.
  - intros float FF input out. rewrite PointCloud2_to_PointXYZ_filter.
    cbn [snd]. split; [reflexivity|].
    intros p. unfold in_band. rewrite filter_In, andb_true_iff. reflexivity.
  - intros input out p Hedge. rewrite PointCloud2_to_PointXYZ_filter.
    cbn [snd]. rewrite filter_In. unfold in_band. intros [_ Hband].
    destruct Hedge as [H|H]; rewrite H in Hband; discriminate.
Qed.

(** The scene's cloud in binary32: the point at one metre and the point at
    a hundred metres are dropped, the point at five metres is kept. *)
Example PointCloud2_to_PointXYZ_binary32 :
  @PointCloud2_to_PointXYZ _ binary32 (@scene_cloud _ binary32) []
  = (true, [@mkPointXYZ spec_float (@of_int _ binary32 0)
              (@of_int _ binary32 3) (@of_int _ binary32 4)]).
Proof. vm_compute. reflexivity. Qed.

(* ================================================================== *)
(** ** Further behaviour of the callbacks *)

Section NodeBehaviour.

Context {double float : Type}.
Context {FD : Floating double} {FF : Floating float}.
Context {LM : Libm double} {CV : Conv double float}.
Context {TF : TfLib double} {ROS : @RosLib double float TF}.
Context {BE : Backend double float}.

Local Open Scope fp_scope.

(* ------------------------------------------------------------------ *)
(** *** The paths of the cloud callback *)

Lemma registration_runs_dec (n : DLLNode) (w : World)
  (cloud : PointCloud2 float) :
  (exists odomTf pclTf, registration_runs n w cloud odomTf pclTf) \/
  (pointcloudCallback n w cloud = (n, []) /\
   m_init n && m_doUpdate n = false) \/
  (pointcloudCallback n w cloud = (n, [RosError]) /\
   m_init n && m_doUpdate n = true /\
   forall odomTf pclTf, ~ registration_runs n w cloud odomTf pclTf).
Proof.
  unfold pointcloudCallback, registration_runs.
  destruct (m_init n); cbn [negb andb]; [|right; left; now split].
  destruct (m_doUpdate n); cbn [negb]; [|right; left; now split].
  destruct (lookupTransform w (m_odomFrameId n) (m_baseFrameId n))
    as [odomTf|].
  2:{ right; right. repeat split. intros o p (_ & _ & H & _). discriminate. }
  destruct (m_tfCache n); cbn [negb].
  - left. exists odomTf, (m_pclTf n). now repeat split.
  - destruct (lookupTransform w (m_baseFrameId n) (cloud_frame_id cloud))
      as [pclTf|].
    + left. exists odomTf, pclTf. now repeat split.
    + right; right. repeat split. intros o p (_ & _ & _ & H). discriminate.
Qed.

Lemma pointcloudCallback_run_cache (n : DLLNode) (w : World)
  (cloud : PointCloud2 float) (odomTf pclTf : Transform) :
  registration_runs n w cloud odomTf pclTf ->
  m_tfCache (fst (pointcloudCallback n w cloud)) = true /\
  m_pclTf (fst (pointcloudCallback n w cloud)) = pclTf /\
  m_lastPeriodicUpdate (fst (pointcloudCallback n w cloud))
  = m_lastPeriodicUpdate n.
Proof.
  intros (Hinit & Hdo & Hodom & Hpcl).
  unfold pointcloudCallback. rewrite Hinit, Hdo, Hodom. cbn [negb].
  destruct (m_tfCache n) eqn:Hc; cbn [negb].
  - destruct (getRPY _) as [[r p] y].
    destruct (m_use_imu n);
      destruct (launchSolver _ _ _ _ _) as [[b [[[tx ty] tz] yaw]] ev];
      cbn; now rewrite Hc.
  - rewrite Hpcl. destruct (getRPY _) as [[r p] y].
    cbn [params set_m_tfCache set_m_pclTf].
    destruct (m_use_imu n);
      destruct (launchSolver _ _ _ _ _) as [[b [[[tx ty] tz] yaw]] ev];
      cbn; now repeat split.
Qed.

(** X1. The cloud callback does nothing unless the filter is initialized
    and an update is pending; with both set, a failed lookup of either
    transform costs one error line and changes nothing - not even the
    pending flag, so the next cloud tries again. *)
Theorem pointcloudCallback_skips :
  forall (n : DLLNode) (w : World) (cloud : PointCloud2 float),
    (m_init n && m_doUpdate n = false ->
     pointcloudCallback n w cloud = (n, [])) /\
    (m_init n && m_doUpdate n = true ->
     (forall odomTf pclTf, ~ registration_runs n w cloud odomTf pclTf) ->
     pointcloudCallback n w cloud = (n, [RosError])).
Proof.
  intros n w cloud.
  destruct (registration_runs_dec n w cloud)
    as [(o & p & Hrun) | [(Heq & Hoff) | (Heq & Hon & Hno)]].
  - split.
    + intros Hoff. destruct Hrun as (Hi & Hd & _).
      rewrite Hi, Hd in Hoff. discriminate.
    + intros _ Hno. destruct (Hno o p Hrun).
  - split; [intros _; exact Heq | intros Hon; congruence].
  - split; [intros Hoff; congruence | intros _ _; exact Heq].
Qed.

(* ------------------------------------------------------------------ *)
(** *** The initial pose *)

Lemma setInitialPose_outcome (n : DLLNode) (w : World) (pose : Transform) :
  match lookupTransform w (m_odomFrameId n) (m_baseFrameId n) with
  | None => setInitialPose n w pose = (n, [RosError])
  | Some odomTf =>
    let n' := fst (setInitialPose n w pose) in
    snd (setInitialPose n w pose) = [] /\
    m_init n' = true /\ m_doUpdate n' = false /\
    m_lastOdomTf n' = odomTf /\
    m_roll n' = (if m_use_imu n then m_roll n
                 else roll_of (getRPY (getBasis odomTf))) /\
    m_pitch n' = (if m_use_imu n then m_pitch n
                  else pitch_of (getRPY (getBasis odomTf))) /\
    m_yaw n' = to_double (to_float (yaw_of (getRPY (getBasis pose)))) /\
    m_lastGlobalTf n'
    = tf_mul
        (mkTransform (setRPY (m_roll n') (m_pitch n') (m_yaw n'))
           (mkVector3 (getX (getOrigin pose)) (getY (getOrigin pose))
              (getZ (getOrigin pose) + m_initZOffset n)))
        (tf_inverse odomTf) /\
    m_tfCache n' = m_tfCache n /\ m_pclTf n' = m_pclTf n /\
    m_backend n' = m_backend n /\
    m_lastPeriodicUpdate n' = m_lastPeriodicUpdate n
  end.
Proof.
  unfold setInitialPose, getYawFromTf.
  destruct (lookupTransform _ _ _) as [odomTf|]; [|reflexivity].
  cbn [m_lastOdomTf set_m_lastOdomTf params].
  destruct (getRPY (getBasis odomTf)) as [[r p] y].
  destruct (getRPY (getBasis pose)) as [[r' p'] y'].
  destruct (m_use_imu n); cbn; repeat split; reflexivity.
Qed.

(* ------------------------------------------------------------------ *)
(** *** One trigger, one registration *)

Lemma align_events_count (n : DLLNode) (points : list (PointXYZ float))
  (guess : Pose4 double) :
  align_count (align_events n points guess) <= 1.
Proof.
  unfold align_count, align_events.
  destruct (strategy_of (m_alignMethod n)); cbn; lia.
Qed.

Lemma deliver_count (n : DLLNode) (i : Input) :
  is_timer i = false ->
  align_count (deliver_events n i) <= 1 /\
  (m_doUpdate n = false ->
   align_count (deliver_events n i) = 0 /\
   m_doUpdate (deliver n i) = false) /\
  (align_count (deliver_events n i) = 1 ->
   m_doUpdate (deliver n i) = false).
Proof.
  assert (Hnone : forall (ev : list Event) (n' : DLLNode),
            align_count ev = 0 ->
            (m_doUpdate n = false -> m_doUpdate n' = false) ->
            align_count ev <= 1 /\
            (m_doUpdate n = false ->
             align_count ev = 0 /\ m_doUpdate n' = false) /\
            (align_count ev = 1 -> m_doUpdate n' = false)).
  { intros ev n' H0 Hkeep. rewrite H0. split; [lia|].
    split; [intros Hd; split; [reflexivity | exact (Hkeep Hd)]|].
    discriminate. }
  destruct i as [msg|w|w msg|w cloud]; intros Hi; try discriminate;
    cbn [deliver deliver_events].
  - apply Hnone; [reflexivity|]. intros Hd.
    destruct (m_use_imu n); [|exact Hd].
    rewrite imuCallback_frame. exact Hd.
  - unfold initialPoseReceived. destruct (negb _).
    { apply Hnone; [reflexivity | auto]. }
    pose proof (setInitialPose_outcome n w (poseMsgToTF (pose_pose msg)))
      as H.
    destruct (lookupTransform _ _ _).
    + cbv zeta in H. destruct H as (Hev & _ & Hd & _).
      apply Hnone; [now rewrite Hev | auto].
    + rewrite H. apply Hnone; [reflexivity | auto].
  - destruct (registration_runs_dec n w cloud)
      as [(o & p & Hrun) | [(Heq & Hoff) | (Heq & Hon & _)]].
    + destruct (pointcloudCallback_run Hrun)
        as (Hev & _ & _ & _ & _ & _ & Hdo & _).
      rewrite Hev. split; [apply align_events_count|]. split.
      * intros Hd. destruct Hrun as (_ & Hd' & _). congruence.
      * intros _. exact Hdo.
    + rewrite Heq. apply Hnone; [reflexivity | auto].
    + rewrite Heq. apply Hnone; [reflexivity | auto].
Qed.

Lemma trace_count (history : list Input) :
  forallb (fun i => negb (is_timer i)) history = true ->
  forall n : DLLNode,
    align_count (trace n history) <= 1 /\
    (m_doUpdate n = false -> align_count (trace n history) = 0).
Proof.
  induction history as [|i history IH]; intros Hh n; cbn [trace].
  - cbn. split; [lia | reflexivity].
  - cbn [forallb] in Hh. apply andb_true_iff in Hh. destruct Hh as [Hi Hh].
    apply negb_true_iff in Hi.
    destruct (deliver_count n i Hi) as (Hle & Hoff & Hone).
    destruct (IH Hh (deliver n i)) as (IHle & IHoff).
    unfold align_count in *. rewrite filter_app, length_app.
    split.
    + destruct (List.length (filter is_align (deliver_events n i)))
        as [|[|k]] eqn:Hk; [lia | | lia].
      rewrite (IHoff (Hone eq_refl)). lia.
    + intros Hd. destruct (Hoff Hd) as (-> & Hd'). now rewrite (IHoff Hd').
Qed.

(** X2. Between two ticks of the update timer at most one registration
    runs: over any history of clouds, IMU messages and initial poses,
    however many clouds arrive, the backends are called at most once, and
    not at all when no update is pending at the start. *)
Theorem one_registration_per_trigger :
  forall (n : DLLNode) (history : list Input),
    forallb (fun i => negb (is_timer i)) history = true ->
    align_count (trace n history) <= 1 /\
    (m_doUpdate n = false -> align_count (trace n history) = 0).
Proof.
  intros n history Hh. exact (trace_count history Hh n).
Qed.

(* ------------------------------------------------------------------ *)
(** *** The timer *)

Lemma checkUpdateThresholds_shape (n : DLLNode) (w : World) :
  snd (checkUpdateThresholds n w)
  = (if m_init n
     then [SendTransform (m_lastGlobalTf n) (now_stamp w)
             (m_globalFrameId n) (m_odomFrameId n)]
     else []) /\
  snd (fst (checkUpdateThresholds n w))
  = (if fst (fst (checkUpdateThresholds n w)) then trigger (now w) n else n).
Proof.
  unfold checkUpdateThresholds.
  destruct (m_init n); cbn [negb]; [|now cbn].
  destruct (lookupTransform _ _ _); [|now cbn].
  destruct (_ >? _); [now cbn|].
  destruct (getRPY _) as [[r p] y].
  destruct (_ >? _); [now cbn|].
  destruct (_ >? _); now cbn.
Qed.

(** X3. Once the filter is initialized every tick of the timer publishes
    the maintained map-to-odom transform, exactly once, whether or not
    the odometry lookup succeeds or a threshold is exceeded; before
    initialization a tick publishes nothing. *)
Theorem timer_broadcasts_global_transform :
  forall (n : DLLNode) (w : World),
    snd (checkUpdateThresholdsTimer n w)
    = if m_init n
      then [SendTransform (m_lastGlobalTf n) (now_stamp w)
              (m_globalFrameId n) (m_odomFrameId n)]
      else [].
Proof.
  intros n w. unfold checkUpdateThresholdsTimer.
  destruct (checkUpdateThresholds_shape n w) as (Hev & _).
  destruct (checkUpdateThresholds n w) as [[r n'] ev]. exact Hev.
Qed.

(** X4. The gate only ever raises the pending flag: a tick changes
    nothing but [m_doUpdate] and [m_lastPeriodicUpdate], an update that is
    pending stays pending, and the period restarts only on a tick that
    returns [true]. *)
Theorem checkUpdateThresholds_only_raises :
  forall (n : DLLNode) (w : World),
    let r := fst (fst (checkUpdateThresholds n w)) in
    let n' := snd (fst (checkUpdateThresholds n w)) in
    n' = set_m_lastPeriodicUpdate (m_lastPeriodicUpdate n')
           (set_m_doUpdate (m_doUpdate n') n) /\
    m_doUpdate n' = (r || m_doUpdate n) /\
    m_lastPeriodicUpdate n'
    = (if r then now w else m_lastPeriodicUpdate n).
Proof.
  intros n w. cbv zeta.
  destruct (checkUpdateThresholds_shape n w) as (_ & Hn).
  rewrite Hn. destruct (fst (fst (checkUpdateThresholds n w))).
  - repeat split; reflexivity.
  - destruct n. repeat split; reflexivity.
Qed.

(* ------------------------------------------------------------------ *)
(** *** Invariants of a history *)

Lemma deliver_init (n : DLLNode) (i : Input) :
  m_init n = true -> m_init (deliver n i) = true.
Proof.
  intros Hinit. destruct i as [msg|w|w msg|w cloud]; cbn [deliver].
  - destruct (m_use_imu n); [|exact Hinit].
    rewrite imuCallback_frame. exact Hinit.
  - unfold checkUpdateThresholdsTimer.
    destruct (checkUpdateThresholds_shape n w) as (_ & Hn).
    destruct (checkUpdateThresholds n w) as [[r n'] ev].
    cbn [fst snd] in *. rewrite Hn. destruct r; exact Hinit.
  - unfold initialPoseReceived. destruct (negb _); [exact Hinit|].
    pose proof (setInitialPose_outcome n w (poseMsgToTF (pose_pose msg)))
      as H.
    destruct (lookupTransform _ _ _).
    + cbv zeta in H. now destruct H as (_ & H & _).
    + now rewrite H.
  - destruct (registration_runs_dec n w cloud)
      as [(o & p & Hrun) | [(Heq & _) | (Heq & _)]].
    + now destruct (pointcloudCallback_run Hrun)
        as (_ & _ & _ & _ & _ & _ & _ & H & _).
    + now rewrite Heq.
    + now rewrite Heq.
Qed.

Lemma deliver_cache (n : DLLNode) (i : Input) :
  m_tfCache n = true ->
  m_tfCache (deliver n i) = true /\ m_pclTf (deliver n i) = m_pclTf n.
Proof.
  intros Hc. destruct i as [msg|w|w msg|w cloud]; cbn [deliver].
  - destruct (m_use_imu n); [|now split].
    rewrite imuCallback_frame. now split.
  - unfold checkUpdateThresholdsTimer.
    destruct (checkUpdateThresholds_shape n w) as (_ & Hn).
    destruct (checkUpdateThresholds n w) as [[r n'] ev].
    cbn [fst snd] in *. rewrite Hn. destruct r; now split.
  - unfold initialPoseReceived. destruct (negb _); [now split|].
    pose proof (setInitialPose_outcome n w (poseMsgToTF (pose_pose msg)))
      as H.
    destruct (lookupTransform _ _ _).
    + cbv zeta in H.
      destruct H as (_ & _ & _ & _ & _ & _ & _ & _ & H1 & H2 & _).
      now rewrite H1, H2.
    + rewrite H. now split.
  - destruct (registration_runs_dec n w cloud)
      as [(o & p & Hrun) | [(Heq & _) | (Heq & _)]].
    + destruct (pointcloudCallback_run_cache Hrun) as (H1 & H2 & _).
      destruct Hrun as (_ & _ & _ & Hp). rewrite Hc in Hp.
      now rewrite H1, H2.
    + rewrite Heq. now split.
    + rewrite Heq. now split.
Qed.

(** X5. The transform from the cloud's frame to the base frame is looked
    up once and then frozen: once cached it stays cached with the same
    value over any history of callbacks, and every later cycle uses it.
    A cloud callback that finds the filter initialized, an update pending
    and the odometry transform runs its cycle whatever the world answers
    for the cloud's frame: the points it hands to the backend are the
    cloud moved by the cached transform, filtered and tilted, and the
    cache is left as it was. *)
Theorem sensor_transform_frozen :
  forall (n : DLLNode) (history : list Input),
    m_tfCache n = true ->
    let later := run n history in
    m_tfCache later = true /\
    m_pclTf later = m_pclTf n /\
    forall (w : World) (cloud : PointCloud2 float) (odomTf : Transform),
      m_init later = true -> m_doUpdate later = true ->
      lookupTransform w (m_odomFrameId later) (m_baseFrameId later)
      = Some odomTf ->
      let moved :=
        transformPointCloud (m_baseFrameId later) (m_pclTf n) cloud in
      let points :=
        tiltCompensate (cycle_roll later odomTf) (cycle_pitch later odomTf)
          (snd (PointCloud2_to_PointXYZ moved [])) in
      let guess := prior_guess later odomTf in
      snd (pointcloudCallback later w cloud)
      = match strategy_of (m_alignMethod later) with
        | Some s => [Align s points (pose_tx guess) (pose_ty guess)
                       (pose_tz guess) (pose_yaw guess)]
        | None => []
        end /\
      m_tfCache (fst (pointcloudCallback later w cloud)) = true /\
      m_pclTf (fst (pointcloudCallback later w cloud)) = m_pclTf n.
Proof.
  intros n history Hc. cbv zeta.
  assert (H : m_tfCache (run n history) = true /\
              m_pclTf (run n history) = m_pclTf n).
  { unfold run. revert n Hc.
    induction history as [|i history IH]; intros n Hc; cbn [fold_left].
    - now split.
    - destruct (deliver_cache n i Hc) as (H1 & H2).
      destruct (IH _ H1) as (H3 & H4). split; [exact H3 | congruence]. }
  destruct H as (H1 & H2). split; [exact H1|]. split; [exact H2|].
  intros w cloud odomTf Hinit Hdo Hodom.
  assert (Hrun : registration_runs (run n history) w cloud odomTf (m_pclTf n)).
  { unfold registration_runs. rewrite H1.
    split; [exact Hinit|]. split; [exact Hdo|]. split; [exact Hodom|].
    exact H2. }
  destruct (pointcloudCallback_run Hrun) as (Hev & _).
  destruct (pointcloudCallback_run_cache Hrun) as (Hc' & Hp' & _).
  split; [exact Hev|]. split; [exact Hc' | exact Hp'].
Qed.

(** X6. Over any history of callbacks the parameters of the node never
    change, and a filter that is initialized stays initialized. *)
Theorem parameters_and_initialization_persist :
  forall (n : DLLNode) (history : list Input),
    params (run n history) = params n /\
    (m_init n = true -> m_init (run n history) = true).
Proof.
  intros n history. split; [apply run_params|].
  unfold run. revert n.
  induction history as [|i history IH]; intros n Hinit; cbn [fold_left].
  - exact Hinit.
  - apply IH. now apply deliver_init.
Qed.

(** [setInitialPose] reads its pose through the three coordinates of the
    origin and through the yaw of the basis, and through nothing else. *)
Lemma setInitialPose_reads_position_and_yaw (n : DLLNode) (w : World)
  (pose pose2 : Transform) :
  getX (getOrigin pose2) = getX (getOrigin pose) ->
  getY (getOrigin pose2) = getY (getOrigin pose) ->
  getZ (getOrigin pose2) = getZ (getOrigin pose) ->
  yaw_of (getRPY (getBasis pose2)) = yaw_of (getRPY (getBasis pose)) ->
  setInitialPose n w pose2 = setInitialPose n w pose.
Proof.
  intros Hx Hy Hz Hyaw.
  unfold setInitialPose, getYawFromTf. rewrite Hx, Hy, Hz.
  destruct (lookupTransform _ _ _) as [odomTf|]; [|reflexivity].
  destruct (getRPY (getBasis pose)) as [[r p] y].
  destruct (getRPY (getBasis pose2)) as [[r2 p2] y2].
  unfold yaw_of in Hyaw. cbn [snd] in Hyaw. subst y2. reflexivity.
Qed.

(** X7. An initial pose in the global frame, when the odometry lookup
    fails, is dropped with one error line and the node unchanged.  When
    the lookup succeeds the filter is initialized and a pending update is
    cancelled; the pose contributes its position and its yaw only.  The
    yaw, narrowed to [float], becomes the node's yaw; roll and pitch are
    the stored ones with the IMU in use and those of the odometry
    transform without; the position, raised by [initial_z_offset], with
    the rotation of that roll, pitch and yaw, times the inverse of the
    odometry transform, becomes the global transform; the cached sensor
    transform and the backend are left alone.  Two messages in the global
    frame with the same position and the same yaw leave the same node,
    whatever else their orientations hold. *)
Theorem initialPoseReceived_accepted :
  forall (n : DLLNode) (w : World) (msg : PoseWithCovarianceStamped double),
    pose_frame_id msg = m_globalFrameId n ->
    let pose := poseMsgToTF (pose_pose msg) in
    let n' := fst (initialPoseReceived n w msg) in
    match lookupTransform w (m_odomFrameId n) (m_baseFrameId n) with
    | None => initialPoseReceived n w msg = (n, [RosError])
    | Some odomTf =>
      snd (initialPoseReceived n w msg) = [] /\
      m_init n' = true /\ m_doUpdate n' = false /\
      m_lastOdomTf n' = odomTf /\
      m_roll n' = (if m_use_imu n then m_roll n
                   else roll_of (getRPY (getBasis odomTf))) /\
      m_pitch n' = (if m_use_imu n then m_pitch n
                    else pitch_of (getRPY (getBasis odomTf))) /\
      m_yaw n' = to_double (to_float (yaw_of (getRPY (getBasis pose)))) /\
      m_lastGlobalTf n'
      = tf_mul
          (mkTransform (setRPY (m_roll n') (m_pitch n') (m_yaw n'))
             (mkVector3 (getX (getOrigin pose)) (getY (getOrigin pose))
                (getZ (getOrigin pose) + m_initZOffset n)))
          (tf_inverse odomTf) /\
      m_tfCache n' = m_tfCache n /\ m_pclTf n' = m_pclTf n /\
      m_backend n' = m_backend n /\
      m_lastPeriodicUpdate n' = m_lastPeriodicUpdate n
    end /\
    forall msg2 : PoseWithCovarianceStamped double,
      pose_frame_id msg2 = m_globalFrameId n ->
      let pose2 := poseMsgToTF (pose_pose msg2) in
      getX (getOrigin pose2) = getX (getOrigin pose) ->
      getY (getOrigin pose2) = getY (getOrigin pose) ->
      getZ (getOrigin pose2) = getZ (getOrigin pose) ->
      yaw_of (getRPY (getBasis pose2)) = yaw_of (getRPY (getBasis pose)) ->
      initialPoseReceived n w msg2 = initialPoseReceived n w msg.
Proof.
  intros n w msg Hframe. cbv zeta. unfold initialPoseReceived.
  rewrite Hframe, String.eqb_refl. cbn [negb].
  split.
  - pose proof (setInitialPose_outcome n w (poseMsgToTF (pose_pose msg)))
      as H.
    destruct (lookupTransform _ _ _); [|exact H].
    cbv zeta in H. exact H.
  - intros msg2 Hframe2 Hx Hy Hz Hyaw.
    rewrite Hframe2, String.eqb_refl. cbn [negb].
    now apply setInitialPose_reads_position_and_yaw.
Qed.

(** X8. After [setInitialPose] succeeds, the maintained transform composed
    with the odometry transform it looked up is the requested pose: the
    position of the pose, raised by [initial_z_offset], with the rotation
    of the node's roll, pitch and yaw.  The composition of transforms is
    taken to obey the laws of rigid motions. *)
Theorem setInitialPose_reproduces_pose :
  forall (n : DLLNode) (w : World) (pose odomTf : Transform),
    composition_laws odomTf ->
    lookupTransform w (m_odomFrameId n) (m_baseFrameId n) = Some odomTf ->
    let n' := fst (setInitialPose n w pose) in
    tf_mul (m_lastGlobalTf n') odomTf
    = mkTransform (setRPY (m_roll n') (m_pitch n') (m_yaw n'))
        (mkVector3 (getX (getOrigin pose)) (getY (getOrigin pose))
           (getZ (getOrigin pose) + m_initZOffset n)).
Proof.
  intros n w pose odomTf (Hassoc & Hid & Hinv) Hlook. cbv zeta.
  pose proof (setInitialPose_outcome n w pose) as H.
  rewrite Hlook in H. cbv zeta in H.
  destruct H as (_ & _ & _ & _ & _ & _ & _ & Hg & _).
  rewrite Hg, Hassoc, Hinv, Hid. reflexivity.
Qed.

(* ------------------------------------------------------------------ *)
(** *** What a cycle does not read *)

(** X9. A cycle never reads the stored yaw, and without the IMU it reads
    none of the stored angles: the outcome of the cloud callback is the
    same whatever they hold.  In particular the yaw an IMU message
    decodes to never reaches a registration. *)
Theorem stored_yaw_is_never_read :
  forall (n : DLLNode) (w : World) (cloud : PointCloud2 float)
         (odomTf pclTf : Transform) (r p y : double),
    registration_runs n w cloud odomTf pclTf ->
    pointcloudCallback (set_m_yaw y n) w cloud = pointcloudCallback n w cloud
    /\ (m_use_imu n = false ->
        pointcloudCallback (set_m_yaw y (set_m_pitch p (set_m_roll r n)))
          w cloud
        = pointcloudCallback n w cloud).
Proof.
  intros n w cloud odomTf pclTf r p y (Hinit & Hdo & Hodom & Hpcl).
  unfold pointcloudCallback.
  cbn [m_init m_doUpdate m_tfCache m_lastGlobalTf params set_m_yaw
       set_m_pitch set_m_roll].
  rewrite Hinit, Hdo, Hodom. cbn [negb].
  destruct (m_tfCache n) eqn:Hc; cbn [negb]; [|rewrite Hpcl];
    destruct (getRPY _) as [[r' p'] y'];
    cbn [params set_m_tfCache set_m_pclTf set_m_yaw set_m_pitch set_m_roll
         m_pclTf];
    (split; [|intros Himu]); destruct (m_use_imu n); try discriminate;
    reflexivity.
Qed.

(** X10. A cloud that leaves no point in the band does not stop the
    cycle: the backend is still called, on an empty list of points, and
    the pending update is consumed. *)
Theorem empty_candidates_still_align :
  forall (n : DLLNode) (w : World) (cloud : PointCloud2 float)
         (odomTf pclTf : Transform),
    registration_runs n w cloud odomTf pclTf ->
    candidate_points n pclTf cloud = [] ->
    snd (pointcloudCallback n w cloud)
    = align_events n [] (prior_guess n odomTf) /\
    m_doUpdate (fst (pointcloudCallback n w cloud)) = false.
Proof.
  intros n w cloud odomTf pclTf Hrun Hempty.
  destruct (pointcloudCallback_run Hrun)
    as (Hev & _ & _ & _ & _ & _ & Hdo & _).
  split; [|exact Hdo].
  rewrite Hev. unfold solver_points. rewrite Hempty. reflexivity.
Qed.

(* ------------------------------------------------------------------ *)
(** *** Before the initial pose, and between registrations *)



Lemma deliver_pose_static (n : DLLNode) (i : Input) :
  is_timer i || is_imu i = true ->
  m_lastGlobalTf (deliver n i) = m_lastGlobalTf n /\
  m_lastOdomTf (deliver n i) = m_lastOdomTf n.
Proof.
  intros Hi. destruct i as [msg|w|w msg|w cloud]; try discriminate;
    cbn [deliver].
  - destruct (m_use_imu n); [|now split].
    rewrite imuCallback_frame. now split.
  - unfold checkUpdateThresholdsTimer.
    destruct (checkUpdateThresholds_shape n w) as (_ & Hn).
    destruct (checkUpdateThresholds n w) as [[r n'] ev].
    cbn [fst snd] in *. rewrite Hn. destruct r; now split.
Qed.

(** X12. Timer ticks and IMU messages never move the pose: over any
    history made of them the maintained map-to-odom transform and the
    odometry transform of the last registration are unchanged, so every
    tick in it publishes the same transform. *)
Theorem timer_and_imu_keep_pose :
  forall (n : DLLNode) (history : list Input),
    forallb (fun i => is_timer i || is_imu i) history = true ->
    m_lastGlobalTf (run n history) = m_lastGlobalTf n /\
    m_lastOdomTf (run n history) = m_lastOdomTf n.
Proof.
  intros n history. unfold run. revert n.
  induction history as [|i history IH]; intros n Hh; cbn [fold_left].
  - now split.
  - cbn [forallb] in Hh. apply andb_true_iff in Hh. destruct Hh as [Hi Hh].
    destruct (deliver_pose_static n i Hi) as (Hg & Ho).
    destruct (IH (deliver n i) Hh) as (IH1 & IH2).
    split; congruence.
Qed.

(** X13. A trigger is honoured by the next cloud whose transforms are
    available: after a tick that returned [true], the cloud callback runs
    a cycle in whatever world it finds, with the guess of that world's
    odometry, and consumes the pending update. *)
Theorem trigger_then_cloud_registers :
  forall (n : DLLNode) (w w' : World) (cloud : PointCloud2 float)
         (odomTf pclTf : Transform),
    fst (fst (checkUpdateThresholds n w)) = true ->
    lookupTransform w' (m_odomFrameId n) (m_baseFrameId n) = Some odomTf ->
    (if m_tfCache n then m_pclTf n = pclTf
     else lookupTransform w' (m_baseFrameId n) (cloud_frame_id cloud)
          = Some pclTf) ->
    let n1 := snd (fst (checkUpdateThresholds n w)) in
    registration_runs n1 w' cloud odomTf pclTf /\
    snd (pointcloudCallback n1 w' cloud)
    = align_events n (solver_points n odomTf pclTf cloud)
        (prior_guess n odomTf) /\
    m_doUpdate (fst (pointcloudCallback n1 w' cloud)) = false /\
    m_lastOdomTf (fst (pointcloudCallback n1 w' cloud)) = odomTf.
Proof.
  intros n w w' cloud odomTf pclTf Htrue Hodom Hpcl. cbv zeta.
  destruct (checkUpdateThresholds_shape n w) as (_ & Hn).
  rewrite Htrue in Hn.
  assert (Hinit : m_init n = true).
  { unfold checkUpdateThresholds in Htrue.
    destruct (m_init n); [reflexivity | discriminate]. }
  assert (Hrun : registration_runs (snd (fst (checkUpdateThresholds n w)))
                   w' cloud odomTf pclTf).
  { rewrite Hn. unfold registration_runs, trigger. cbn. now repeat split. }
  split; [exact Hrun|].
  destruct (pointcloudCallback_run Hrun)
    as (Hev & _ & _ & _ & _ & Ho & Hdo & _).
  split; [|split; [exact Hdo | exact Ho]].
  rewrite Hev, Hn. reflexivity.
Qed.

(* ------------------------------------------------------------------ *)
(** *** The tilt compensation keeps ranges *)

Section ExactTilt.

Hypothesis Hexact : exact_arithmetic (T:=float).

Add Ring float_ring_tilt : (float_ring_theory Hexact).

Lemma rotate_tilt_range (roll pitch : double) (p : PointXYZ float) :
  let sr := to_float (fsin roll) in
  let cr := to_float (fcos roll) in
  let sp := to_float (fsin pitch) in
  let cp := to_float (fcos pitch) in
  sr * sr + cr * cr = of_int 1 ->
  sp * sp + cp * cp = of_int 1 ->
  squared_range (rotate (tilt_matrix roll pitch) p) = squared_range p.
Proof.
  cbv zeta. intros Hr Hp. destruct p as [x y z].
  unfold squared_range, rotate, tilt_matrix, dot, vec_of_point.
  cbn [px py pz row0 row1 row2 getX getY getZ].
  set (sr := to_float (fsin roll)) in *. set (cr := to_float (fcos roll)) in *.
  set (sp := to_float (fsin pitch)) in *.
  set (cp := to_float (fcos pitch)) in *.
  transitivity
    (x * x + y * y + z * z
     + (x * x + (y * sr + z * cr) * (y * sr + z * cr))
       * (sp * sp + cp * cp + - of_int 1)
     + (y * y + z * z) * (sr * sr + cr * cr + - of_int 1)).
  - ring.
  - rewrite Hr, Hp. ring.
Qed.

End ExactTilt.

(** X14. In exact arithmetic, with [sin^2 + cos^2 = 1] for the roll and
    for the pitch, the tilt compensation keeps the number of points and
    the squared range of every point: what the band filter admitted is
    still inside the band when it reaches the backend. *)
Theorem tiltCompensate_preserves_range :
  forall (roll pitch : double) (downCloud : list (PointXYZ float)),
    exact_arithmetic (T:=float) ->
    to_float (fsin roll) * to_float (fsin roll)
    + to_float (fcos roll) * to_float (fcos roll) = of_int 1 ->
    to_float (fsin pitch) * to_float (fsin pitch)
    + to_float (fcos pitch) * to_float (fcos pitch) = of_int 1 ->
    List.length (tiltCompensate roll pitch downCloud)
    = List.length downCloud /\
    map squared_range (tiltCompensate roll pitch downCloud)
    = map squared_range downCloud /\
    forallb in_band (tiltCompensate roll pitch downCloud)
    = forallb in_band downCloud.
Proof.
  intros roll pitch downCloud Hexact Hr Hp.
  rewrite tiltCompensate_map.
  assert (Hrange : forall p,
            squared_range (rotate (tilt_matrix roll pitch) p)
            = squared_range p)
    by (intros p; exact (rotate_tilt_range Hexact roll pitch p Hr Hp)).
  split; [apply length_map|]. split.
  - rewrite map_map. apply map_ext. exact Hrange.
  - induction downCloud as [|p l IH]; [reflexivity|].
    cbn [map forallb]. rewrite IH. unfold in_band. now rewrite Hrange.
Qed.

Lemma checkUpdateThresholds_period (n : DLLNode) (w : World)
  (odomTf : Transform) :
  m_init n = true ->
  lookupTransform w (m_odomFrameId n) (m_baseFrameId n) = Some odomTf ->
  (toSec (time_sub (now w) (m_lastPeriodicUpdate n)) >? m_tTh n) = true ->
  fst (fst (checkUpdateThresholds n w)) = true.
Proof.
  intros Hinit Hlook Ht. unfold checkUpdateThresholds.
  rewrite Hinit, Hlook, Ht. cbn [negb].
  destruct (v3_length _ >? _); [reflexivity|].
  destruct (getRPY _) as [[r p] y].
  destruct (fabs y >? _); reflexivity.
Qed.

(* ------------------------------------------------------------------ *)
(** *** Roll and pitch over a history *)

Lemma last_valid_rpy_valid (msgs : list (Imu double))
  (d : double * double * double) :
  last_valid_rpy msgs = Some d -> has_nan d = false.
Proof.
  unfold last_valid_rpy.
  assert (H : forall acc,
            (forall d', acc = Some d' -> has_nan d' = false) ->
            fold_left
              (fun acc msg => if has_nan (decodeRPY msg) then acc
                              else Some (decodeRPY msg)) msgs acc = Some d ->
            has_nan d = false).
  { induction msgs as [|msg msgs IH]; intros acc Hacc; cbn [fold_left].
    - apply Hacc.
    - apply IH. destruct (has_nan (decodeRPY msg)) eqn:Hm; [exact Hacc|].
      intros d' Hd'. injection Hd' as <-. exact Hm. }
  apply H. discriminate.
Qed.

(** X17. With the IMU in use the roll and pitch the node works with are
    never a NaN: if they are not at the start they are not after any
    history of callbacks, whatever the IMU messages decode to. *)
Theorem roll_pitch_never_nan :
  forall (n : DLLNode) (history : list Input),
    m_use_imu n = true ->
    isnan (m_roll n) = false -> isnan (m_pitch n) = false ->
    isnan (m_roll (run n history)) = false /\
    isnan (m_pitch (run n history)) = false.
Proof.
  intros n history Himu Hr Hp.
  pose proof (run_tilt history n Himu) as H.
  destruct (last_valid_rpy (imu_messages history)) as [d|] eqn:Hd.
  - apply last_valid_rpy_valid in Hd. unfold has_nan in Hd.
    apply orb_false_iff in Hd. destruct Hd as [Hd _].
    apply orb_false_iff in Hd. destruct Hd as [Hdr Hdp].
    injection H as -> ->. now split.
  - injection H as -> ->. now split.
Qed.

End NodeBehaviour.

(* ================================================================== *)
(** ** The constructor *)

Section ConstructorProperties.

Context {double float : Type}.
Context {FD : Floating double} {DL : DoubleLit double}.
Context {CV : Conv double float}.
Context {TF : TfLib double} {ROS : @RosLib double float TF}.
Context {BE : Backend double float}.

Lemma setInitialPose_failure (n : DLLNode) (w : World) (pose : Transform) :
  lookupTransform w (m_odomFrameId n) (m_baseFrameId n) = None ->
  setInitialPose n w pose = (n, [RosError]).
Proof. intros H. unfold setInitialPose. now rewrite H. Qed.

Lemma setInitialPose_success (n : DLLNode) (w : World)
  (pose odomTf : Transform) :
  lookupTransform w (m_odomFrameId n) (m_baseFrameId n) = Some odomTf ->
  snd (setInitialPose n w pose) = [] /\
  params (fst (setInitialPose n w pose)) = params n /\
  m_doUpdate (fst (setInitialPose n w pose)) = false /\
  m_tfCache (fst (setInitialPose n w pose)) = m_tfCache n /\
  m_lastPeriodicUpdate (fst (setInitialPose n w pose))
  = m_lastPeriodicUpdate n /\
  m_lastOdomTf (fst (setInitialPose n w pose)) = odomTf.
Proof.
  intros H. unfold setInitialPose, getYawFromTf. rewrite H.
  cbn [m_lastOdomTf set_m_lastOdomTf params].
  destruct (getRPY (getBasis odomTf)) as [[r p] y].
  destruct (getRPY (getBasis pose)) as [[r' p'] y'].
  destruct (m_use_imu n); cbn; repeat split; reflexivity.
Qed.

(** X15. The constructed node has no update pending and no sensor
    transform cached, and it is initialized exactly when an initial pose
    is configured.  Without one it keeps the identity as global transform
    and zero angles.  With one it is initialized even when the odometry
    lookup of [setInitialPose] fails: then the global transform is still
    the identity and [m_lastOdomTf] still holds what the default
    constructor left there. *)
Theorem constructor_initialization :
  forall (lp : Launch double) (backend : BackendState)
         (unset_pcl unset_odom : Transform) (w : World),
    let n := fst (DLLNode_new lp backend unset_pcl unset_odom w) in
    let ev := snd (DLLNode_new lp backend unset_pcl unset_odom w) in
    m_init n = initial_pose_configured lp /\
    m_doUpdate n = false /\ m_tfCache n = false /\
    m_lastPeriodicUpdate n = now w /\
    (initial_pose_configured lp = false ->
     ev = [] /\ m_lastGlobalTf n = tf_identity /\
     m_roll n = of_int 0 /\ m_pitch n = of_int 0 /\ m_yaw n = of_int 0) /\
    (initial_pose_configured lp = true ->
     match lookupTransform w (m_odomFrameId n) (m_baseFrameId n) with
     | None =>
         ev = [RosError] /\ m_lastGlobalTf n = tf_identity /\
         m_lastOdomTf n = unset_odom
     | Some odomTf => ev = [] /\ m_lastOdomTf n = odomTf
     end).
Proof.
  intros lp backend unset_pcl unset_odom w. cbv zeta.
  unfold DLLNode_new, initial_pose_configured.
  set (configured := fne _ _ || fne _ _ || fne _ _ || fne _ _).
  set (n0 := mkDLLNode _ _ _ _ _ _ _ _ _ _ _ _).
  set (pose := mkTransform _ _).
  destruct configured.
  - destruct (lookupTransform w (m_odomFrameId n0) (m_baseFrameId n0))
      as [odomTf|] eqn:Hlook.
    + destruct (setInitialPose_success n0 w pose Hlook)
        as (Hev & Hp & Hd & Hc & Ht & Ho).
      destruct (setInitialPose n0 w pose) as [n1 ev1]. cbn [fst snd] in *.
      cbn [m_init m_doUpdate m_tfCache m_lastPeriodicUpdate params
           m_lastOdomTf set_m_init].
      rewrite Hp, Hd, Hc, Ht, Hlook.
      repeat split; try assumption; try reflexivity; discriminate.
    + rewrite (setInitialPose_failure n0 w pose Hlook).
      cbn [fst snd m_init m_doUpdate m_tfCache m_lastPeriodicUpdate params
           m_lastOdomTf m_lastGlobalTf set_m_init].
      rewrite Hlook.
      repeat split; try reflexivity; discriminate.
  - cbn. repeat split; try reflexivity; discriminate.
Qed.

End ConstructorProperties.

(* ================================================================== *)
(** ** Points that are not numbers *)

Lemma b32_square_blown (x : spec_float) :
  b32_finite x = false -> b32_blown (@fmul _ binary32 x x).
Proof.
  destruct x as [s|s| |s m e]; try discriminate; intros _; cbn.
  - right. now destruct s.
  - now left.
Qed.

Lemma b32_add_blown_l (a b : spec_float) :
  b32_blown a -> b32_blown (@fadd _ binary32 a b).
Proof.
  intros [-> | ->]; cbn.
  - now left.
  - destruct b as [s|[|]| |s m e]; cbn; first [now left | now right].
Qed.

Lemma b32_add_blown_r (a b : spec_float) :
  b32_blown b -> b32_blown (@fadd _ binary32 a b).
Proof.
  intros [-> | ->]; cbn.
  - destruct a; now left.
  - destruct a as [s|[|]| |s m e]; cbn; first [now left | now right].
Qed.

Lemma b32_blown_out_of_band (p : PointXYZ spec_float) :
  b32_blown (@squared_range _ binary32 p) -> @in_band _ binary32 p = false.
Proof.
  unfold in_band. intros [-> | ->]; reflexivity.
Qed.

(** X16. In binary32 a point with a coordinate that is a NaN or an
    infinity is never retained by the filter. *)
Theorem PointCloud2_to_PointXYZ_drops_non_numbers :
  forall (input : PointCloud2 spec_float) (out : list (PointXYZ spec_float))
         (p : PointXYZ spec_float),
    b32_finite (px p) && b32_finite (py p) && b32_finite (pz p) = false ->
    ~ In p (snd (@PointCloud2_to_PointXYZ _ binary32 input out)).
Proof.
  intros input out p Hp. rewrite PointCloud2_to_PointXYZ_filter.
  cbn [snd]. rewrite filter_In. intros [_ Hband].
  rewrite b32_blown_out_of_band in Hband; [discriminate|].
  unfold squared_range.
  apply andb_false_iff in Hp. destruct Hp as [Hp | Hz].
  - apply andb_false_iff in Hp. destruct Hp as [Hx | Hy].
    + apply b32_add_blown_l, b32_add_blown_l, b32_square_blown, Hx.
    + apply b32_add_blown_l, b32_add_blown_r, b32_square_blown, Hy.
  - apply b32_add_blown_r, b32_square_blown, Hz.
Qed.

(* ================================================================== *)
(** ** The further behaviour on the scene *)

Section RealSceneBehaviour.

#[local] Existing Instances RefTf RefRos RefConv RefBackend.

Lemma one_registration_per_trigger_scene :
  let n := scene_node (S:=R) false 1 in
  let history :=
    [InCloud scene_world scene_cloud; InImu scene_imu;
     InCloud scene_world scene_cloud] in
  align_count (trace n history) <= 1 /\
  (m_doUpdate n = false -> align_count (trace n history) = 0).
Proof.
  exact (one_registration_per_trigger (scene_node (S:=R) false 1)
           [InCloud scene_world scene_cloud; InImu scene_imu;
            InCloud scene_world scene_cloud] eq_refl).
Defined.

Lemma sensor_transform_frozen_scene :
  let n := scene_node_cached (S:=R) in
  let history := [InCloud scene_world scene_cloud; InTimer scene_world] in
  let later := run n history in
  m_tfCache later = true /\
  m_pclTf later = m_pclTf n /\
  forall (w : World) (cloud : PointCloud2 R) (odomTf : @Transform R RefTf),
    m_init later = true -> m_doUpdate later = true ->
    lookupTransform w (m_odomFrameId later) (m_baseFrameId later)
    = Some odomTf ->
    let moved :=
      transformPointCloud (m_baseFrameId later) (m_pclTf n) cloud in
    let points :=
      tiltCompensate (cycle_roll later odomTf) (cycle_pitch later odomTf)
        (snd (PointCloud2_to_PointXYZ moved [])) in
    let guess := prior_guess later odomTf in
    snd (pointcloudCallback later w cloud)
    = match strategy_of (m_alignMethod later) with
      | Some s => [Align s points (pose_tx guess) (pose_ty guess)
                     (pose_tz guess) (pose_yaw guess)]
      | None => []
      end /\
    m_tfCache (fst (pointcloudCallback later w cloud)) = true /\
    m_pclTf (fst (pointcloudCallback later w cloud)) = m_pclTf n.
Proof.
  exact (sensor_transform_frozen (scene_node_cached (S:=R))
           [InCloud scene_world scene_cloud; InTimer scene_world] eq_refl).
Defined.

Lemma initialPoseReceived_accepted_scene :
  let n := scene_node (S:=R) false 1 in
  let w := scene_world (S:=R) in
  let msg := scene_pose_in_map (S:=R) in
  let pose := poseMsgToTF (pose_pose msg) in
  let n' := fst (initialPoseReceived n w msg) in
  match lookupTransform w (m_odomFrameId n) (m_baseFrameId n) with
  | None => initialPoseReceived n w msg = (n, [RosError])
  | Some odomTf =>
    snd (initialPoseReceived n w msg) = [] /\
    m_init n' = true /\ m_doUpdate n' = false /\
    m_lastOdomTf n' = odomTf /\
    m_roll n' = (if m_use_imu n then m_roll n
                 else roll_of (getRPY (getBasis odomTf))) /\
    m_pitch n' = (if m_use_imu n then m_pitch n
                  else pitch_of (getRPY (getBasis odomTf))) /\
    m_yaw n' = to_double (to_float (yaw_of (getRPY (getBasis pose)))) /\
    m_lastGlobalTf n'
    = tf_mul
        (mkTransform (setRPY (m_roll n') (m_pitch n') (m_yaw n'))
           (mkVector3 (getX (getOrigin pose)) (getY (getOrigin pose))
              (getZ (getOrigin pose) + m_initZOffset n)%fp))
        (tf_inverse odomTf) /\
    m_tfCache n' = m_tfCache n /\ m_pclTf n' = m_pclTf n /\
    m_backend n' = m_backend n /\
    m_lastPeriodicUpdate n' = m_lastPeriodicUpdate n
  end /\
  forall msg2 : PoseWithCovarianceStamped R,
    pose_frame_id msg2 = m_globalFrameId n ->
    let pose2 := poseMsgToTF (pose_pose msg2) in
    getX (getOrigin pose2) = getX (getOrigin pose) ->
    getY (getOrigin pose2) = getY (getOrigin pose) ->
    getZ (getOrigin pose2) = getZ (getOrigin pose) ->
    yaw_of (getRPY (getBasis pose2)) = yaw_of (getRPY (getBasis pose)) ->
    initialPoseReceived n w msg2 = initialPoseReceived n w msg.
Proof.
  exact (initialPoseReceived_accepted (scene_node (S:=R) false 1)
           scene_world (scene_pose_in_map (S:=R)) eq_refl).
Defined.

Lemma setInitialPose_reproduces_pose_scene :
  let n := scene_node (S:=R) false 1 in
  let pose := poseMsgToTF (pose_pose (scene_pose_in_map (S:=R))) in
  let n' := fst (setInitialPose n scene_world pose) in
  tf_mul (m_lastGlobalTf n') scene_odom
  = mkTransform (setRPY (m_roll n') (m_pitch n') (m_yaw n'))
      (mkVector3 (getX (getOrigin pose)) (getY (getOrigin pose))
         (getZ (getOrigin pose) + m_initZOffset n)%fp).
Proof.
  exact (setInitialPose_reproduces_pose (scene_node (S:=R) false 1)
           scene_world
           (poseMsgToTF (pose_pose (scene_pose_in_map (S:=R))))
           (odomTf:=scene_odom)
           (scene_composition_laws R_exact) eq_refl).
Defined.

Lemma stored_yaw_is_never_read_scene :
  let n := scene_node (S:=R) false 1 in
  pointcloudCallback (set_m_yaw 3%R n) scene_world scene_cloud
  = pointcloudCallback n scene_world scene_cloud /\
  (m_use_imu n = false ->
   pointcloudCallback
     (set_m_yaw 3%R (set_m_pitch 2%R (set_m_roll 1%R n)))
     scene_world scene_cloud
   = pointcloudCallback n scene_world scene_cloud).
Proof.
  exact (stored_yaw_is_never_read 1%R 2%R 3%R (scene_runs false 1)).
Defined.

Lemma scene_runs_on_empty_cloud :
  registration_runs (scene_node (S:=R) false 1) scene_world
    scene_empty_cloud scene_odom scene_lidar.
Proof. repeat split. Qed.

Lemma empty_candidates_still_align_scene :
  let n := scene_node (S:=R) false 1 in
  snd (pointcloudCallback n scene_world scene_empty_cloud)
  = align_events n [] (prior_guess n scene_odom) /\
  m_doUpdate (fst (pointcloudCallback n scene_world scene_empty_cloud))
  = false.
Proof.
  exact (empty_candidates_still_align scene_runs_on_empty_cloud eq_refl).
Defined.


Lemma timer_and_imu_keep_pose_scene :
  let n := scene_node (S:=R) true 1 in
  let history := [InTimer scene_world; InImu scene_imu] in
  m_lastGlobalTf (run n history) = m_lastGlobalTf n /\
  m_lastOdomTf (run n history) = m_lastOdomTf n.
Proof.
  exact (timer_and_imu_keep_pose (scene_node (S:=R) true 1)
           [InTimer scene_world; InImu scene_imu] eq_refl).
Defined.

(** On the scene five seconds have passed since the last trigger, with a
    period of one. *)
Lemma scene_gate_fires :
  fst (fst (checkUpdateThresholds (scene_node (S:=R) false 1) scene_world))
  = true.
Proof.
  apply (checkUpdateThresholds_period (scene_node (S:=R) false 1)
           scene_world (odomTf:=scene_odom) eq_refl eq_refl).
  change (R_gt (5 - 0) 1 = true). unfold R_gt.
  destruct (Rgt_dec (5 - 0) 1); [reflexivity | lra].
Qed.

Lemma trigger_then_cloud_registers_scene :
  let n := scene_node (S:=R) false 1 in
  let n1 := snd (fst (checkUpdateThresholds n scene_world)) in
  registration_runs n1 scene_world scene_cloud scene_odom scene_lidar /\
  snd (pointcloudCallback n1 scene_world scene_cloud)
  = align_events n (solver_points n scene_odom scene_lidar scene_cloud)
      (prior_guess n scene_odom) /\
  m_doUpdate (fst (pointcloudCallback n1 scene_world scene_cloud)) = false /\
  m_lastOdomTf (fst (pointcloudCallback n1 scene_world scene_cloud))
  = scene_odom.
Proof.
  exact (trigger_then_cloud_registers (scene_node (S:=R) false 1)
           scene_world scene_world scene_cloud (odomTf:=scene_odom)
           scene_lidar scene_gate_fires eq_refl eq_refl).
Defined.

Lemma tiltCompensate_preserves_range_scene :
  let cloud := cloud_points (scene_cloud (S:=R)) in
  List.length (tiltCompensate 1%R 2%R cloud) = List.length cloud /\
  map squared_range (tiltCompensate 1%R 2%R cloud)
  = map squared_range cloud /\
  forallb in_band (tiltCompensate 1%R 2%R cloud) = forallb in_band cloud.
Proof.
  exact (tiltCompensate_preserves_range 1%R 2%R
           (cloud_points (scene_cloud (S:=R))) R_exact
           (sin2_cos2 1) (sin2_cos2 2)).
Defined.

End RealSceneBehaviour.

Section NanSceneBehaviour.

#[local] Existing Instances RefTf RefRos RefConv RefBackend.

Lemma roll_pitch_never_nan_scene :
  let n := scene_node (S:=Rnan) true 1 in
  let history :=
    [InImu imu_with_nan; InCloud scene_world scene_cloud;
     InImu imu_with_nan] in
  isnan (m_roll (run n history)) = false /\
  isnan (m_pitch (run n history)) = false.
Proof.
  exact (roll_pitch_never_nan (scene_node (S:=Rnan) true 1)
           [InImu imu_with_nan; InCloud scene_world scene_cloud;
            InImu imu_with_nan] eq_refl eq_refl eq_refl).
Defined.

End NanSceneBehaviour.

Lemma PointCloud2_to_PointXYZ_drops_non_numbers_example :
  ~ In b32_point_with_nan
      (snd (@PointCloud2_to_PointXYZ _ binary32
              (mkPointCloud2 "velodyne" [b32_point_with_nan]) [])).
Proof.
  exact (PointCloud2_to_PointXYZ_drops_non_numbers
           (mkPointCloud2 "velodyne" [b32_point_with_nan]) []
           b32_point_with_nan eq_refl).
Defined.
